(** * bigip_ltm_node: the node resource of the BIG-IP provider

    A shallow embedding of [bigip/resource_bigip_ltm_node.go] and the
    properties of its create / read / update / exists handlers.

    Layout: Go's strings and the two regular expressions of the file, the
    schema and [schema.ResourceData], the [bigip.BigIP] client interface,
    the handlers, an in-memory device used by the examples, and then the
    lemmas. *)

From Stdlib Require Import ZArith NArith Ascii String DecimalString.
From stdpp Require Import gmap strings list fin_maps.

Local Open Scope string_scope.

(* ===================================================================== *)
(** ** Go strings and UTF-8 decoding *)
(* ===================================================================== *)

(** A Go string is a sequence of bytes; [string] (a list of 8-bit [ascii])
    is exactly that.  Package regexp walks its input rune by rune with
    [utf8.DecodeRuneInString]; a byte that does not start a well-formed
    encoding is the rune U+FFFD of width 1. *)

Definition byte_val (b : ascii) : N := N_of_ascii b.

Definition in_range (lo hi : N) (b : ascii) : bool :=
  ((lo <=? byte_val b) && (byte_val b <=? hi))%N.

(** Width in bytes of the rune that starts at byte [b0] followed by [t]
    (the [first] and [acceptRanges] tables of package unicode/utf8). *)
Definition utf8_size (b0 : ascii) (t : string) : nat :=
  let x := byte_val b0 in
  if (x <? 128)%N then 1
  else if (x <? 194)%N then 1
  else if (x <? 224)%N then
    match t with
    | String b1 _ => if in_range 128 191 b1 then 2 else 1
    | _ => 1
    end
  else if (x <? 240)%N then
    match t with
    | String b1 (String b2 _) =>
        let lo := if (x =? 224)%N then 160%N else 128%N in
        let hi := if (x =? 237)%N then 159%N else 191%N in
        if in_range lo hi b1 && in_range 128 191 b2 then 3 else 1
    | _ => 1
    end
  else if (x <? 245)%N then
    match t with
    | String b1 (String b2 (String b3 _)) =>
        let lo := if (x =? 240)%N then 144%N else 128%N in
        let hi := if (x =? 244)%N then 143%N else 191%N in
        if in_range lo hi b1 && in_range 128 191 b2 && in_range 128 191 b3
        then 4 else 1
    | _ => 1
    end
  else 1.

Fixpoint skip (n : nat) (s : string) : string :=
  match n, s with
  | S n', String _ t => skip n' t
  | _, _ => s
  end.

(** The patterns of this file only name ASCII characters, so a rune is
    either one ASCII byte or "something else" (any code point above 127,
    U+FFFD included). *)
Inductive rune : Type :=
| RAscii (b : ascii)
| RWide.

(** [DecodeRuneInString]: the rune at the head of [s], its width and what
    follows it. *)
Definition DecodeRuneInString (s : string) : option (rune * nat * string) :=
  match s with
  | EmptyString => None
  | String b0 t =>
      if (byte_val b0 <? 128)%N then Some (RAscii b0, 1, t)
      else let w := utf8_size b0 t in Some (RWide, w, skip (w - 1) t)
  end.

(* ===================================================================== *)
(** ** Package regexp: syntax and leftmost-first matching *)
(* ===================================================================== *)

(** Syntax trees for the fragment of RE2 syntax the file uses.  [show]
    prints a tree back to its pattern, so that each tree below is tied to
    the string literal in the source. *)
Inductive regex : Type :=
| Lit (c : ascii)                       (* c *)
| Esc (c : ascii)                       (* \c, an escaped punctuation *)
| Digit09                               (* [0-9] *)
| PerlDigit                             (* \d *)
| AnyCharNotNL                          (* . *)
| BeginText                             (* ^ *)
| EndText                               (* $ *)
| Capture (i : nat) (r : regex)         (* (r), the i-th left parenthesis *)
| Group (r : regex)                     (* (?:r) *)
| Star (r : regex)                      (* r* *)
| Plus (r : regex)                      (* r+ *)
| Quest (r : regex)                     (* r? *)
| Repeat (r : regex) (min max : nat)    (* r{min,max}; r{n} when min = max *)
| Concat (r1 r2 : regex)                (* r1r2 *)
| Alternate (r1 r2 : regex).            (* r1|r2 *)

Definition itoa (n : nat) : string := NilZero.string_of_uint (Nat.to_uint n).

Fixpoint show (r : regex) : string :=
  match r with
  | Lit c => String c ""
  | Esc c => String "\" (String c "")
  | Digit09 => "[0-9]"
  | PerlDigit => "\d"
  | AnyCharNotNL => "."
  | BeginText => "^"
  | EndText => "$"
  | Capture _ r => "(" ++ show r ++ ")"
  | Group r => "(?:" ++ show r ++ ")"
  | Star r => show r ++ "*"
  | Plus r => show r ++ "+"
  | Quest r => show r ++ "?"
  | Repeat r lo hi =>
      if Nat.eqb lo hi then show r ++ "{" ++ itoa lo ++ "}"
      else show r ++ "{" ++ itoa lo ++ "," ++ itoa hi ++ "}"
  | Concat r1 r2 => show r1 ++ show r2
  | Alternate r1 r2 => show r1 ++ "|" ++ show r2
  end.

(** Number of capture groups ([Regexp.NumSubexp]). *)
Fixpoint NumSubexp (r : regex) : nat :=
  match r with
  | Capture i r => Nat.max i (NumSubexp r)
  | Group r | Star r | Plus r | Quest r | Repeat r _ _ => NumSubexp r
  | Concat r1 r2 | Alternate r1 r2 => Nat.max (NumSubexp r1) (NumSubexp r2)
  | _ => 0
  end.

(** A thread of the matcher: byte offset into the text, the text still to
    be read, and the capture registers (start and end offsets). *)
Record thread : Type := Thread {
  pos : nat;
  rest : string;
  cap : gmap nat (nat * nat)
}.

Definition matcher : Type :=
  thread -> (thread -> option (gmap nat (nat * nat))) -> option (gmap nat (nat * nat)).

Definition is_digit (b : ascii) : bool := in_range 48 57 b.

(** Consume one rune that satisfies [p]. *)
Definition one_rune (p : rune -> bool) : matcher := fun th k =>
  match DecodeRuneInString (rest th) with
  | Some (c, w, t) =>
      if p c then k (Thread (pos th + w) t (cap th)) else None
  | None => None
  end.

Definition rune_is (c : ascii) (x : rune) : bool :=
  match x with RAscii b => Ascii.eqb b c | RWide => false end.

Definition rune_digit (x : rune) : bool :=
  match x with RAscii b => is_digit b | RWide => false end.

Definition rune_not_nl (x : rune) : bool :=
  match x with RAscii b => negb (Ascii.eqb b "010") | RWide => true end.

(** Preference order is the one of a backtracking matcher, which is what
    leftmost-first matching means: the first alternative before the second,
    one more iteration before stopping (all the operators here are greedy). *)
Definition orelse (a b : option (gmap nat (nat * nat))) :=
  match a with Some c => Some c | None => b end.

(** [r*]: an iteration has to consume input, so [n], the number of bytes
    left when the loop is entered, bounds the number of iterations. *)
Fixpoint star_loop (body : matcher) (n : nat) : matcher := fun th k =>
  match n with
  | O => k th
  | S n' =>
      orelse
        (body th (fun th' =>
           if Nat.ltb (pos th) (pos th') then star_loop body n' th' k else None))
        (k th)
  end.

(** [r{0,n}], compiled as [(r(r(r)?)?)?]. *)
Fixpoint opt_loop (body : matcher) (n : nat) : matcher := fun th k =>
  match n with
  | O => k th
  | S n' => orelse (body th (fun th' => opt_loop body n' th' k)) (k th)
  end.

(** [r{n}] followed by [after]. *)
Fixpoint req_loop (body : matcher) (n : nat) (after : matcher) : matcher :=
  fun th k =>
  match n with
  | O => after th k
  | S n' => body th (fun th' => req_loop body n' after th' k)
  end.

Fixpoint run (r : regex) : matcher := fun th k =>
  match r with
  | Lit c | Esc c => one_rune (rune_is c) th k
  | Digit09 | PerlDigit => one_rune rune_digit th k
  | AnyCharNotNL => one_rune rune_not_nl th k
  | BeginText => if Nat.eqb (pos th) 0 then k th else None
  | EndText => match rest th with EmptyString => k th | _ => None end
  | Capture i r =>
      run r th (fun th' =>
        k (Thread (pos th') (rest th') (<[i := (pos th, pos th')]> (cap th'))))
  | Group r => run r th k
  | Star r => star_loop (run r) (String.length (rest th)) th k
  | Plus r =>
      run r th (fun th' => star_loop (run r) (String.length (rest th')) th' k)
  | Quest r => opt_loop (run r) 1 th k
  | Repeat r lo hi => req_loop (run r) lo (opt_loop (run r) (hi - lo)) th k
  | Concat r1 r2 => run r1 th (fun th' => run r2 th' k)
  | Alternate r1 r2 => orelse (run r1 th k) (run r2 th k)
  end.

(** One attempt at byte offset [p]; register 0 is the whole match. *)
Definition match_at (r : regex) (p : nat) (s : string) : option (gmap nat (nat * nat)) :=
  run r (Thread p s ∅) (fun th => Some (<[0 := (p, pos th)]> (cap th))).

(** Unanchored search: the leftmost offset at which an attempt succeeds,
    stepping over the text one rune at a time. *)
Fixpoint search (r : regex) (n : nat) (p : nat) (s : string) : option (gmap nat (nat * nat)) :=
  match match_at r p s with
  | Some c => Some c
  | None =>
      match n with
      | O => None
      | S n' =>
          match DecodeRuneInString s with
          | Some (_, w, t) => search r n' (p + w) t
          | None => None
          end
      end
  end.

Definition find (r : regex) (s : string) : option (gmap nat (nat * nat)) :=
  search r (String.length s) 0 s.

(** [Regexp.MatchString]. *)
Definition MatchString (r : regex) (s : string) : bool :=
  match find r s with Some _ => true | None => false end.

(** [Regexp.FindStringSubmatch]: [None] is the nil slice; otherwise the
    whole match followed by one string per capture group, empty for a group
    that took no part in the match. *)
Definition FindStringSubmatch (r : regex) (s : string) : option (list string) :=
  match find r s with
  | None => None
  | Some c =>
      Some (List.map
              (fun i => match c !! i with
                        | Some (b, e) => substring b (e - b) s
                        | None => ""
                        end)
              (seq 0 (S (NumSubexp r))))
  end.

(** The classification pattern of create and update (lines 125 and 240). *)
Definition classify_regex : regex :=
  Alternate
    (Concat BeginText
       (Capture 1
          (Concat
             (Repeat (Group (Concat (Repeat Digit09 1 3) AnyCharNotNL)) 3 3)
             (Repeat Digit09 1 3))))
    (Concat
       (Capture 2 (Concat (Star AnyCharNotNL) (Concat (Lit ":") (Star AnyCharNotNL))))
       EndText).

(** The extraction pattern of read (line 195). *)
Definition extract_regex : regex :=
  Concat
    (Capture 1
       (Concat
          (Repeat (Group (Concat (Repeat Digit09 1 3) (Esc "."))) 3 3)
          (Repeat Digit09 1 3)))
    (Quest (Group (Concat (Esc "%") (Plus PerlDigit)))).

(* ===================================================================== *)
(** ** Values, the schema and schema.ResourceData *)
(* ===================================================================== *)

(** What [d.Get] hands back: an [interface{}] holding a string or an int,
    or nil. *)
Inductive value : Type :=
| VNil
| VString (s : string)
| VInt (n : Z).

Inductive ValueType : Type := TypeString | TypeInt | TypeList.

(** One entry of a [map[string]*schema.Schema]: the type and the declared
    default, if any. *)
Record Schema : Type := MkSchema {
  Type_ : ValueType;
  Default : option value
}.

(** The top-level schema of the resource (lines 23 to 109). *)
Definition node_schema : list (string * Schema) :=
  [ ("name", MkSchema TypeString None);
    ("address", MkSchema TypeString None);
    ("rate_limit", MkSchema TypeString None);
    ("connection_limit", MkSchema TypeInt (Some (VInt 0)));
    ("dynamic_ratio", MkSchema TypeInt (Some (VInt 0)));
    ("ratio", MkSchema TypeInt (Some (VInt 1)));
    ("monitor", MkSchema TypeString None);
    ("state", MkSchema TypeString (Some (VString "user-up")));
    ("fqdn", MkSchema TypeList None) ].

(** The schema of one element of the [fqdn] list (lines 77 to 106). *)
Definition fqdn_schema : list (string * Schema) :=
  [ ("address_family", MkSchema TypeString None);
    ("name", MkSchema TypeString None);
    ("interval", MkSchema TypeString (Some (VString "3600")));
    ("down_interval", MkSchema TypeInt (Some (VInt 5)));
    ("autopopulate", MkSchema TypeString (Some (VString "disabled"))) ].

Fixpoint lookup_schema (k : string) (sch : list (string * Schema)) : option Schema :=
  match sch with
  | [] => None
  | (k', s) :: sch' => if String.eqb k k' then Some s else lookup_schema k sch'
  end.

Definition zero_value (t : ValueType) : value :=
  match t with
  | TypeString => VString ""
  | TypeInt => VInt 0
  | TypeList => VNil
  end.

Definition has_type (t : ValueType) (v : value) : bool :=
  match t, v with
  | TypeString, VString _ => true
  | TypeInt, VInt _ => true
  | _, _ => false
  end.

(** [schema.ResourceData] is modelled by the identifier and the flat
    attribute map the host keeps for a resource: [name], [fqdn.#],
    [fqdn.0.interval] and so on.  A key the map does not hold reads as
    nil. *)
Record ResourceData : Type := MkResourceData {
  rd_id : string;
  rd_attrs : gmap string value
}.

Definition rd_get (d : ResourceData) (key : string) : value :=
  match rd_attrs d !! key with
  | Some v => v
  | None => VNil
  end.

(** What the host puts in the map for one attribute of a schema: the
    configured value when it has the declared type, else the declared
    default, else the zero value of the type. *)
Definition resolve (s : Schema) (configured : option value) : value :=
  match configured with
  | Some v => if has_type (Type_ s) v then v else zero_value (Type_ s)
  | None =>
      match Default s with
      | Some v => v
      | None => zero_value (Type_ s)
      end
  end.

Definition scalar (s : Schema) : bool :=
  match Type_ s with TypeList => false | _ => true end.

Fixpoint put_attrs (prefix : string) (sch : list (string * Schema))
    (cfg : gmap string value) (m : gmap string value) : gmap string value :=
  match sch with
  | [] => m
  | (k, s) :: sch' =>
      let m' := put_attrs prefix sch' cfg m in
      if scalar s then <[prefix ++ k := resolve s (cfg !! k)]> m' else m'
  end.

Fixpoint put_fqdn (i : nat) (subs : list (gmap string value))
    (m : gmap string value) : gmap string value :=
  match subs with
  | [] => m
  | sub :: subs' =>
      put_fqdn (S i) subs'
        (put_attrs ("fqdn." ++ itoa i ++ ".") fqdn_schema sub m)
  end.

(** The [ResourceData] the host hands to create for a configuration with
    top-level attributes [cfg] and [fqdn] blocks [subs]: only keys the
    schema declares, each with its declared type. *)
Definition configure (cfg : gmap string value) (subs : list (gmap string value))
    : ResourceData :=
  MkResourceData ""
    (<["fqdn.#" := VInt (Z.of_nat (List.length subs))]>
       (put_fqdn 0 subs (put_attrs "" node_schema cfg ∅))).

(** The scalar top-level attributes hold values of their declared types. *)
Definition typed (d : ResourceData) : bool :=
  forallb
    (fun ks => negb (scalar (snd ks)) || has_type (Type_ (snd ks)) (rd_get d (fst ks)))
    node_schema.

(** Typed readings of an attribute, for the statements below. *)
Definition attr_string (d : ResourceData) (key : string) : string :=
  match rd_get d key with VString s => s | _ => "" end.

Definition attr_int (d : ResourceData) (key : string) : Z :=
  match rd_get d key with VInt n => n | _ => 0%Z end.

(* ===================================================================== *)
(** ** The remote API client *)
(* ===================================================================== *)

(** Go's [error] values. *)
Inductive error : Type := Error (msg : string).

Definition Error_msg (e : error) : string := match e with Error m => m end.

(** The fields of [bigip.Node] this file reads or fills; [FQDN_Name] is
    [node.FQDN.Name]. *)
Record Node : Type := MkNode {
  Address : string;
  ConnectionLimit : Z;
  DynamicRatio : Z;
  Monitor : string;
  RateLimit : string;
  State : string;
  FQDN_Name : string
}.

(** The methods of [*bigip.BigIP] the handlers call, over an abstract
    state [R] of the remote device.  [GetNode] answers [(None, None)] for a
    node the device does not know. *)
Class BigIP (R : Type) : Type := {
  CreateNode :
    string -> string -> string -> Z -> Z -> Z -> string -> string ->
    R -> option error * R;
  CreateFQDNNode :
    string -> string -> string -> Z -> Z -> Z -> string -> string ->
    string -> Z -> string -> R -> option error * R;
  GetNode : string -> R -> (option Node * option error) * R;
  ModifyNode : string -> Node -> R -> option error * R;
  DeleteNode : string -> R -> option error * R
}.

(** The calls a handler issued, in order. *)
Inductive Call : Type :=
| CallCreateNode (name address rate_limit : string)
    (connection_limit dynamic_ratio ratio : Z) (monitor state : string)
| CallCreateFQDNNode (name address rate_limit : string)
    (connection_limit dynamic_ratio ratio : Z) (monitor state : string)
    (interval : string) (down_interval : Z) (auto_populate : string)
| CallGetNode (name : string)
| CallModifyNode (name : string) (node : Node)
| CallDeleteNode (name : string).

Definition is_create (c : Call) : bool :=
  match c with
  | CallCreateNode _ _ _ _ _ _ _ _ => true
  | CallCreateFQDNNode _ _ _ _ _ _ _ _ _ _ _ => true
  | _ => false
  end.

Definition is_static_create (c : Call) : bool :=
  match c with CallCreateNode _ _ _ _ _ _ _ _ => true | _ => false end.

Definition is_fqdn_create (c : Call) : bool :=
  match c with CallCreateFQDNNode _ _ _ _ _ _ _ _ _ _ _ => true | _ => false end.

Definition is_modify (c : Call) : bool :=
  match c with CallModifyNode _ _ => true | _ => false end.

(* ===================================================================== *)
(** ** The handlers *)
(* ===================================================================== *)

(** A handler runs against the resource data it was given by pointer, the
    remote device, and the log of calls; it returns normally or panics. *)
Record World (R : Type) : Type := MkWorld {
  data : ResourceData;
  remote : R;
  calls : list Call
}.
Arguments MkWorld {R} _ _ _.
Arguments data {R} _.
Arguments remote {R} _.
Arguments calls {R} _.

Inductive Outcome (A : Type) : Type :=
| Return (a : A)
| Panic (msg : string).
Arguments Return {A} _.
Arguments Panic {A} _.

Definition Go (R A : Type) : Type := World R -> Outcome A * World R.

Definition ret {R A} (a : A) : Go R A := fun w => (Return a, w).

Definition bind {R A B} (m : Go R A) (f : A -> Go R B) : Go R B := fun w =>
  match m w with
  | (Return a, w') => f a w'
  | (Panic msg, w') => (Panic msg, w')
  end.

Definition panic {R A} (msg : string) : Go R A := fun w => (Panic msg, w).

Notation "x <- c1 ;; c2" := (bind c1 (fun x => c2))
  (at level 100, c1 at next level, right associativity).

Section Handlers.
Context {R : Type} `{BigIP R}.

(** [d.Id()], [d.SetId], [d.Get] and [d.Set]. *)
Definition Id : Go R string := fun w => (Return (rd_id (data w)), w).

Definition SetId (id : string) : Go R unit := fun w =>
  (Return tt, MkWorld (MkResourceData id (rd_attrs (data w))) (remote w) (calls w)).

Definition Get (key : string) : Go R value := fun w =>
  (Return (rd_get (data w) key), w).

(** [d.Set] refuses a key outside the schema and a value of the wrong
    type; otherwise it stores the value. *)
Definition Set_ (key : string) (v : value) : Go R (option error) := fun w =>
  match lookup_schema key node_schema with
  | Some s =>
      if has_type (Type_ s) v then
        (Return None,
         MkWorld (MkResourceData (rd_id (data w)) (<[key := v]> (rd_attrs (data w))))
                 (remote w) (calls w))
      else (Return (Some (Error (key ++ ": wrong type"))), w)
  | None => (Return (Some (Error ("Invalid address to set: " ++ key))), w)
  end.

(** The type assertions [x.(string)] and [x.(int)]. *)
Definition as_string (v : value) : Go R string :=
  match v with
  | VString s => ret s
  | VInt _ => panic "interface conversion: interface {} is int, not string"
  | VNil => panic "interface conversion: interface {} is nil, not string"
  end.

Definition as_int (v : value) : Go R Z :=
  match v with
  | VInt n => ret n
  | VString _ => panic "interface conversion: interface {} is string, not int"
  | VNil => panic "interface conversion: interface {} is nil, not int"
  end.

Definition get_string (key : string) : Go R string :=
  v <- Get key ;; as_string v.

Definition get_int (key : string) : Go R Z :=
  v <- Get key ;; as_int v.

(** Slice indexing [xs[i]]. *)
Definition index (xs : option (list string)) (i : nat) : Go R string :=
  match xs with
  | None => panic "runtime error: index out of range"
  | Some l =>
      match nth_error l i with
      | Some x => ret x
      | None => panic "runtime error: index out of range"
      end
  end.

(** Client calls, logged. *)
Definition logged {A} (c : Call) (f : R -> A * R) : Go R A := fun w =>
  let '(a, r') := f (remote w) in
  (Return a, MkWorld (data w) r' (calls w ++ [c])).

Definition client_CreateNode name address rate_limit connection_limit
    dynamic_ratio ratio monitor state : Go R (option error) :=
  logged
    (CallCreateNode name address rate_limit connection_limit dynamic_ratio
       ratio monitor state)
    (CreateNode name address rate_limit connection_limit dynamic_ratio
       ratio monitor state).

Definition client_CreateFQDNNode name address rate_limit connection_limit
    dynamic_ratio ratio monitor state interval down_interval auto_populate
    : Go R (option error) :=
  logged
    (CallCreateFQDNNode name address rate_limit connection_limit dynamic_ratio
       ratio monitor state interval down_interval auto_populate)
    (CreateFQDNNode name address rate_limit connection_limit dynamic_ratio
       ratio monitor state interval down_interval auto_populate).

Definition client_GetNode name : Go R (option Node * option error) :=
  logged (CallGetNode name) (GetNode name).

Definition client_ModifyNode name node : Go R (option error) :=
  logged (CallModifyNode name node) (ModifyNode name node).

Definition client_DeleteNode name : Go R (option error) :=
  logged (CallDeleteNode name) (DeleteNode name).

(** [fmt.Errorf("[DEBUG] Error saving <what> to state for Node (%s): %s", d.Id(), err)] *)
Definition saving_error (what id : string) (e : error) : error :=
  Error ("[DEBUG] Error saving " ++ what ++ " to state for Node (" ++ id
         ++ "): " ++ Error_msg e).

(** [resourceBigipLtmNodeRead] (lines 172 to 212). *)
Definition resourceBigipLtmNodeRead : Go R (option error) :=
  name <- Id ;;
  got <- client_GetNode name ;;
  let '(node, err) := got in
  match err with
  | Some e => ret (Some e)
  | None =>
      match node with
      | None => _ <- SetId "" ;; ret None
      | Some node =>
          err <-
            (if negb (String.eqb (FQDN_Name node) "") then
               Set_ "address" (VString (FQDN_Name node))
             else
               let regex := extract_regex in
               let address := FindStringSubmatch regex (Address node) in
               a1 <- index address 1 ;;
               Set_ "address" (VString a1)) ;;
          match err with
          | Some e => id <- Id ;; ret (Some (saving_error "address" id e))
          | None =>
              _ <- Set_ "name" (VString name) ;;
              err <- Set_ "monitor" (VString (Monitor node)) ;;
              match err with
              | Some e => id <- Id ;; ret (Some (saving_error "Monitor" id e))
              | None =>
                  err <- Set_ "rate_limit" (VString (RateLimit node)) ;;
                  match err with
                  | Some e => id <- Id ;; ret (Some (saving_error "Monitor" id e))
                  | None =>
                      _ <- Set_ "connection_limit" (VInt (ConnectionLimit node)) ;;
                      _ <- Set_ "dynamic_ratio" (VInt (DynamicRatio node)) ;;
                      ret None
                  end
              end
          end
      end
  end.

(** The loop of lines 142 to 160: [n] iterations are left, [i] is the
    loop counter and [err] the variable the loop assigns. *)
Fixpoint create_fqdn_loop (name address rate_limit : string)
    (connection_limit dynamic_ratio ratio : Z) (monitor state : string)
    (n i : nat) (err : option error) : Go R (option error) :=
  match n with
  | O => ret err
  | S n' =>
      let prefix := "fqdn." ++ itoa i in
      interval <- get_string (prefix ++ ".interval") ;;
      down_interval <- get_int (prefix ++ ".down_interval") ;;
      auto_populate <- get_string (prefix ++ ".auto_populate") ;;
      err <- client_CreateFQDNNode name address rate_limit connection_limit
               dynamic_ratio ratio monitor state interval down_interval
               auto_populate ;;
      create_fqdn_loop name address rate_limit connection_limit dynamic_ratio
        ratio monitor state n' (S i) err
  end.

(** [resourceBigipLtmNodeCreate] (lines 113 to 170). *)
Definition resourceBigipLtmNodeCreate : Go R (option error) :=
  name <- get_string "name" ;;
  address <- get_string "address" ;;
  rate_limit <- get_string "rate_limit" ;;
  connection_limit <- get_int "connection_limit" ;;
  dynamic_ratio <- get_int "dynamic_ratio" ;;
  ratio <- get_int "ratio" ;;
  monitor <- get_string "monitor" ;;
  state <- get_string "state" ;;
  let r := classify_regex in
  err <-
    (if MatchString r address then
       client_CreateNode name address rate_limit connection_limit
         dynamic_ratio ratio monitor state
     else
       ifaceCount <- get_int "fqdn.#" ;;
       create_fqdn_loop name address rate_limit connection_limit
         dynamic_ratio ratio monitor state (Z.to_nat ifaceCount) 0 None) ;;
  match err with
  | Some e => ret (Some e)
  | None => _ <- SetId name ;; resourceBigipLtmNodeRead
  end.

(** [resourceBigipLtmNodeExists] (lines 214 to 232). *)
Definition resourceBigipLtmNodeExists : Go R (bool * option error) :=
  name <- Id ;;
  got <- client_GetNode name ;;
  let '(node, err) := got in
  match err with
  | Some e => ret (false, Some e)
  | None =>
      match node with
      | None => _ <- SetId "" ;; ret (false, None)
      | Some _ => ret (true, None)
      end
  end.

(** [resourceBigipLtmNodeUpdate] (lines 234 to 268). *)
Definition resourceBigipLtmNodeUpdate : Go R (option error) :=
  name <- Id ;;
  address <- get_string "address" ;;
  let r := classify_regex in
  if MatchString r address then
    connection_limit <- get_int "connection_limit" ;;
    dynamic_ratio <- get_int "dynamic_ratio" ;;
    monitor <- get_string "monitor" ;;
    rate_limit <- get_string "rate_limit" ;;
    state <- get_string "state" ;;
    let node :=
      MkNode address connection_limit dynamic_ratio monitor rate_limit state "" in
    resourceBigipLtmNodeRead
  else
    connection_limit <- get_int "connection_limit" ;;
    dynamic_ratio <- get_int "dynamic_ratio" ;;
    monitor <- get_string "monitor" ;;
    rate_limit <- get_string "rate_limit" ;;
    state <- get_string "state" ;;
    let node :=
      MkNode "" connection_limit dynamic_ratio monitor rate_limit state "" in
    err <- client_ModifyNode name node ;;
    match err with
    | Some e => ret (Some e)
    | None => resourceBigipLtmNodeRead
    end.

(** [resourceBigipLtmNodeDelete] (lines 270 to 283). *)
Definition resourceBigipLtmNodeDelete : Go R (option error) :=
  name <- Id ;;
  err <- client_DeleteNode name ;;
  match err with
  | Some e => ret (Some e)
  | None => _ <- SetId "" ;; ret None
  end.

End Handlers.

(* ===================================================================== *)
(** ** An in-memory device, for the examples *)
(* ===================================================================== *)

(** A device that keeps its nodes in a map.  [faults] scripts the answers
    of the next create, modify and delete calls ([Some e] makes the call
    fail with [e] and change nothing); [get_fault] makes every fetch fail. *)
Record Device : Type := MkDevice {
  nodes : gmap string Node;
  faults : list (option error);
  get_fault : option error
}.

Definition mutate (f : gmap string Node -> gmap string Node) (dev : Device)
    : option error * Device :=
  match faults dev with
  | Some e :: fs => (Some e, MkDevice (nodes dev) fs (get_fault dev))
  | None :: fs => (None, MkDevice (f (nodes dev)) fs (get_fault dev))
  | [] => (None, MkDevice (f (nodes dev)) [] (get_fault dev))
  end.

#[export] Instance Device_BigIP : BigIP Device := {
  CreateNode name address rate_limit connection_limit dynamic_ratio ratio
      monitor state :=
    mutate (fun ns =>
      <[name := MkNode address connection_limit dynamic_ratio monitor
                  rate_limit state ""]> ns);
  CreateFQDNNode name address rate_limit connection_limit dynamic_ratio ratio
      monitor state interval down_interval auto_populate :=
    mutate (fun ns =>
      <[name := MkNode "any6" connection_limit dynamic_ratio monitor
                  rate_limit state address]> ns);
  GetNode name dev :=
    match get_fault dev with
    | Some e => ((None, Some e), dev)
    | None => ((nodes dev !! name, None), dev)
    end;
  ModifyNode name node :=
    mutate (fun ns =>
      match ns !! name with
      | Some old =>
          <[name := MkNode (Address old) (ConnectionLimit node)
                      (DynamicRatio node) (Monitor node) (RateLimit node)
                      (State node) (FQDN_Name old)]> ns
      | None => ns
      end);
  DeleteNode name := mutate (fun ns => delete name ns)
}.

Definition empty_device : Device := MkDevice ∅ [] None.

Definition start (d : ResourceData) (dev : Device) : World Device :=
  MkWorld d dev [].

(** Local state after a run: identifier and attribute bindings. *)
Definition address_of {R} (w : World R) : value := rd_get (data w) "address".

(* ===================================================================== *)
(** ** Worlds before and after a run *)
(* ===================================================================== *)

(** The world after a logged client call that left the device in [r']. *)
Definition after_call {R} (w : World R) (c : Call) (r' : R) : World R :=
  MkWorld (data w) r' (calls w ++ [c]).

Definition with_id {R} (id : string) (w : World R) : World R :=
  MkWorld (MkResourceData id (rd_attrs (data w))) (remote w) (calls w).

(** The six attributes read stores, in the order it stores them. *)
Definition refresh (address name : string) (node : Node) (d : ResourceData)
    : ResourceData :=
  MkResourceData (rd_id d)
    (<["dynamic_ratio" := VInt (DynamicRatio node)]>
       (<["connection_limit" := VInt (ConnectionLimit node)]>
          (<["rate_limit" := VString (RateLimit node)]>
             (<["monitor" := VString (Monitor node)]>
                (<["name" := VString name]>
                   (<["address" := VString address]> (rd_attrs d))))))).

Definition refreshed {R} (address : string) (node : Node) (w : World R) : World R :=
  MkWorld (refresh address (rd_id (data w)) node (data w)) (remote w) (calls w).

(** The payload update builds in its else branch. *)
Definition modify_payload (d : ResourceData) : Node :=
  MkNode "" (attr_int d "connection_limit") (attr_int d "dynamic_ratio")
    (attr_string d "monitor") (attr_string d "rate_limit")
    (attr_string d "state") "".

(** The call the static branch of create issues for [d]. *)
Definition static_create_call (d : ResourceData) : Call :=
  CallCreateNode (attr_string d "name") (attr_string d "address")
    (attr_string d "rate_limit") (attr_int d "connection_limit")
    (attr_int d "dynamic_ratio") (attr_int d "ratio")
    (attr_string d "monitor") (attr_string d "state").

Definition static_create {R} `{BigIP R} (d : ResourceData) : R -> option error * R :=
  CreateNode (attr_string d "name") (attr_string d "address")
    (attr_string d "rate_limit") (attr_int d "connection_limit")
    (attr_int d "dynamic_ratio") (attr_int d "ratio")
    (attr_string d "monitor") (attr_string d "state").

(** What create does once it is past the calls of its two branches. *)
Definition create_finish {R} `{BigIP R} (name : string) (err : option error)
    : Go R (option error) :=
  match err with
  | Some e => ret (Some e)
  | None => _ <- SetId name ;; resourceBigipLtmNodeRead
  end.

(** Two worlds that differ at most in what the resource data holds under
    [key], and a computation that cannot tell them apart. *)
Definition agree {R} (key : string) (w1 w2 : World R) : Prop :=
  rd_id (data w1) = rd_id (data w2) /\
  remote w1 = remote w2 /\
  calls w1 = calls w2 /\
  forall k, k <> key -> rd_get (data w1) k = rd_get (data w2) k.

Definition blind {R A} (key : string) (m : Go R A) : Prop :=
  forall w1 w2, agree key w1 w2 ->
    fst (m w1) = fst (m w2) /\ agree key (snd (m w1)) (snd (m w2)).

(** The calls a run added to the log. *)
Definition issued {R} (before after : World R) : list Call :=
  drop (List.length (calls before)) (calls after).

(** [n] reads or existence checks in a row, with the outcome of each. *)
Fixpoint repeat_go {R A} (m : Go R A) (n : nat) (w : World R)
    : list (Outcome A) * World R :=
  match n with
  | O => ([], w)
  | S n' =>
      let '(o, w') := m w in
      let '(os, w'') := repeat_go m n' w' in
      (o :: os, w'')
  end.

(* ===================================================================== *)
(** ** Resources and devices used in the examples *)
(* ===================================================================== *)

(** A tracked resource (identifier = name) configured with a name, an
    address and the given [fqdn] blocks, everything else at its default. *)
Definition resource (name address : string) (subs : list (gmap string value))
    : ResourceData :=
  MkResourceData name
    (rd_attrs (configure (<["name" := VString name]>
                            (<["address" := VString address]> ∅)) subs)).

(** The same resource before create has given it an identifier. *)
Definition planned (name address : string) (subs : list (gmap string value))
    : ResourceData :=
  configure (<["name" := VString name]> (<["address" := VString address]> ∅)) subs.

(** Resource data that also answers a key outside the schema. *)
Definition with_attr (key : string) (v : value) (d : ResourceData) : ResourceData :=
  MkResourceData (rd_id d) (<[key := v]> (rd_attrs d)).

(** A device that holds one node. *)
Definition device_with (name : string) (node : Node) : Device :=
  MkDevice {[ name := node ]} [] None.

Definition static_node (address : string) : Node :=
  MkNode address 0 0 "" "" "user-up" "".

Definition fqdn_node (address fqdn : string) : Node :=
  MkNode address 0 0 "" "" "user-up" fqdn.

(* ===================================================================== *)
(** ** What a pattern cannot match without *)
(* ===================================================================== *)

(** The text holds no byte [c]. *)
Fixpoint no_byte (c : ascii) (s : string) : bool :=
  match s with
  | EmptyString => true
  | String b t => negb (Ascii.eqb b c) && no_byte c t
  end.

(** The text holds no decimal digit. *)
Fixpoint no_digit (s : string) : bool :=
  match s with
  | EmptyString => true
  | String b t => negb (is_digit b) && no_digit t
  end.

(** A sufficient syntactic test: every match of [r] consumes a byte [c]. *)
Fixpoint needs (c : ascii) (r : regex) : bool :=
  match r with
  | Lit c' | Esc c' => Ascii.eqb c' c
  | Capture _ r | Group r | Plus r => needs c r
  | Repeat r lo _ => Nat.leb 1 lo && needs c r
  | Concat r1 r2 => needs c r1 || needs c r2
  | Alternate r1 r2 => needs c r1 && needs c r2
  | _ => false
  end.

(** A continuation that fails on every thread whose remaining text holds
    no [c], and a matcher that hands such continuations only such threads. *)
Definition dead (c : ascii) (k : thread -> option (gmap nat (nat * nat))) : Prop :=
  forall th, no_byte c (rest th) = true -> k th = None.

Definition passes (c : ascii) (m : matcher) : Prop :=
  forall k, dead c k -> dead c (fun th => m th k).

(* ===================================================================== *)
(** ** Resource data as the host builds it *)
(* ===================================================================== *)

(** The resource data of a resource with identifier [id], built from a
    configuration by the schema: every key it holds is declared. *)
Definition built (id : string) (cfg : gmap string value)
    (subs : list (gmap string value)) : ResourceData :=
  MkResourceData id (rd_attrs (configure cfg subs)).

(** The last [k] bytes of a text (all of it when it is shorter). *)
Definition lastn (k : nat) (s : string) : string :=
  skip (String.length s - k) s.

Definition str_at (m : gmap string value) (key : string) : Prop :=
  exists s, m !! key = Some (VString s).

Definition int_at (m : gmap string value) (key : string) : Prop :=
  exists n, m !! key = Some (VInt n).

(* ===================================================================== *)
(** ** What read and update work with *)
(* ===================================================================== *)

(** The address read derives from a node: its FQDN name when it has one,
    else the first capture group of the extraction pattern on its address. *)
Definition derived_address (node : Node) (address : string) : Prop :=
  (FQDN_Name node <> "" /\ address = FQDN_Name node) \/
  (FQDN_Name node = "" /\
   exists whole rest_, FindStringSubmatch extract_regex (Address node)
                       = Some (whole :: address :: rest_)).

(** The attributes read stores, and the ones update asks for. *)
Definition read_keys : list string :=
  ["address"; "name"; "monitor"; "rate_limit"; "connection_limit"; "dynamic_ratio"].

Definition update_keys : list string :=
  ["address"; "connection_limit"; "dynamic_ratio"; "monitor"; "rate_limit"; "state"].

(* ===================================================================== *)
(** ** The words of the specification *)
(* ===================================================================== *)

(** The classification pattern as the specification writes it, with the
    dots escaped (the pattern is printed by [show_spec_classify_regex]). *)
Definition spec_classify_regex : regex :=
  Alternate
    (Concat BeginText
       (Capture 1
          (Concat
             (Repeat (Capture 2 (Concat (Repeat PerlDigit 1 3) (Esc "."))) 3 3)
             (Repeat PerlDigit 1 3))))
    (Concat
       (Capture 3 (Concat (Star AnyCharNotNL) (Concat (Lit ":") (Star AnyCharNotNL))))
       EndText).

Fixpoint all_digits (s : string) : bool :=
  match s with
  | EmptyString => true
  | String b t => is_digit b && all_digits t
  end.

(** One to three decimal digits. *)
Definition octet (s : string) : bool :=
  all_digits s && Nat.leb 1 (String.length s) && Nat.leb (String.length s) 3.

(** "IPv4 dotted-quad": four octets separated by dots. *)
Definition dotted_quad (a b c d : string) : string :=
  a ++ "." ++ b ++ "." ++ c ++ "." ++ d.

(** "Route-domain suffix": nothing, or [%] and a decimal number. *)
Definition route_domain_suffix (sfx : string) : Prop :=
  sfx = "" \/ exists rd, sfx = "%" ++ rd /\ rd <> "" /\ all_digits rd = true.

Fixpoint no_newline (s : string) : bool :=
  match s with
  | EmptyString => true
  | String b t => negb (Ascii.eqb b "010") && no_newline t
  end.

Definition leading_digit (s : string) : bool :=
  match s with
  | String b _ => is_digit b
  | EmptyString => false
  end.

(* ===================================================================== *)
(** * Properties *)
(* ===================================================================== *)

(** ** The patterns are the ones of the source *)

Lemma show_classify_regex :
  show classify_regex = "^((?:[0-9]{1,3}.){3}[0-9]{1,3})|(.*:.*)$".
Proof. reflexivity. Qed.

Lemma show_extract_regex :
  show extract_regex = "((?:[0-9]{1,3}\.){3}[0-9]{1,3})(?:\%\d+)?".
Proof. reflexivity. Qed.

Lemma show_spec_classify_regex :
  show spec_classify_regex = "^((\d{1,3}\.){3}\d{1,3})|(.*:.*)$".
Proof. reflexivity. Qed.

(** ** Stepping the matcher *)

Lemma string_app_cons b s t : String b s ++ t = String b (s ++ t).
Proof. reflexivity. Qed.

Lemma string_app_nil t : "" ++ t = t.
Proof. reflexivity. Qed.

Ltac norm_app := rewrite ?string_app_cons, ?string_app_nil.

Lemma is_digit_ascii b : is_digit b = true -> (byte_val b <? 128)%N = true.
Proof.
  unfold is_digit, in_range. intros Hd.
  apply andb_prop in Hd as [_ Hhi].
  apply N.leb_le in Hhi. apply N.ltb_lt. lia.
Qed.

Lemma decode_ascii b t :
  (byte_val b <? 128)%N = true ->
  DecodeRuneInString (String b t) = Some (RAscii b, 1, t).
Proof. intros Hb. simpl. now rewrite Hb. Qed.

Lemma run_digit_ok r b t p c k :
  r = Digit09 \/ r = PerlDigit ->
  is_digit b = true ->
  run r (Thread p (String b t) c) k = k (Thread (p + 1) t c).
Proof.
  intros Hr Hd.
  assert (Hstep : one_rune rune_digit (Thread p (String b t) c) k
                  = k (Thread (p + 1) t c)).
  { unfold one_rune. cbn [rest pos cap].
    rewrite (decode_ascii b t (is_digit_ascii b Hd)).
    cbn [rune_digit]. now rewrite Hd. }
  destruct Hr as [-> | ->]; exact Hstep.
Qed.

Lemma run_digit_fail r s p c k :
  r = Digit09 \/ r = PerlDigit ->
  leading_digit s = false ->
  run r (Thread p s c) k = None.
Proof.
  intros Hr Hd.
  assert (Hstep : one_rune rune_digit (Thread p s c) k = None).
  { unfold one_rune. cbn [rest pos cap].
    destruct s as [|b t]; [reflexivity|].
    cbn [DecodeRuneInString leading_digit] in *.
    destruct (byte_val b <? 128)%N; cbn [rune_digit]; [now rewrite Hd | reflexivity]. }
  destruct Hr as [-> | ->]; exact Hstep.
Qed.

Lemma run_char_ok r ch t p c k :
  r = Lit ch \/ r = Esc ch ->
  (byte_val ch <? 128)%N = true ->
  run r (Thread p (String ch t) c) k = k (Thread (p + 1) t c).
Proof.
  intros Hr Hb.
  assert (Hstep : one_rune (rune_is ch) (Thread p (String ch t) c) k
                  = k (Thread (p + 1) t c)).
  { unfold one_rune. cbn [rest pos cap].
    rewrite (decode_ascii ch t Hb). cbn [rune_is].
    now rewrite Ascii.eqb_refl. }
  destruct Hr as [-> | ->]; exact Hstep.
Qed.

Lemma run_any_ascii b t p c k :
  (byte_val b <? 128)%N = true ->
  Ascii.eqb b "010" = false ->
  run AnyCharNotNL (Thread p (String b t) c) k = k (Thread (p + 1) t c).
Proof.
  intros Hb Hnl. cbn [run]. unfold one_rune. cbn [rest pos cap].
  rewrite (decode_ascii b t Hb). cbn [rune_not_nl]. now rewrite Hnl.
Qed.

(** A greedy [[0-9]{1,3}] in front of an octet that no digit follows: the
    preferred thread takes the whole octet. *)
Lemma run_octet r o t p c k x :
  r = Digit09 \/ r = PerlDigit ->
  octet o = true ->
  leading_digit t = false ->
  k (Thread (p + String.length o) t c) = Some x ->
  run (Repeat r 1 3) (Thread p (o ++ t) c) k = Some x.
Proof.
  intros Hr Ho Ht Hk. unfold octet in Ho.
  apply andb_prop in Ho as [Ho Hhi]. apply andb_prop in Ho as [Hall Hlo].
  apply Nat.leb_le in Hlo, Hhi.
  cbn [run req_loop Nat.sub].
  destruct o as [|b1 [|b2 [|b3 [|b4 o]]]]; cbn [String.length] in *; try lia.
  - cbn in Hall. apply andb_prop in Hall as [H1 _].
    norm_app. rewrite (run_digit_ok r b1 t p c _ Hr H1).
    cbn [opt_loop]. rewrite (run_digit_fail r t (p + 1) c _ Hr Ht).
    cbn [orelse]. exact Hk.
  - cbn in Hall. apply andb_prop in Hall as [H1 Hall].
    apply andb_prop in Hall as [H2 _].
    norm_app. rewrite (run_digit_ok r b1 _ p c _ Hr H1).
    cbn [opt_loop]. rewrite (run_digit_ok r b2 t (p + 1) c _ Hr H2).
    rewrite (run_digit_fail r t (p + 1 + 1) c _ Hr Ht). cbn [orelse].
    replace (p + 1 + 1) with (p + 2) by lia. now rewrite Hk.
  - cbn in Hall. apply andb_prop in Hall as [H1 Hall].
    apply andb_prop in Hall as [H2 Hall]. apply andb_prop in Hall as [H3 _].
    norm_app. rewrite (run_digit_ok r b1 _ p c _ Hr H1).
    cbn [opt_loop]. rewrite (run_digit_ok r b2 _ (p + 1) c _ Hr H2).
    rewrite (run_digit_ok r b3 t (p + 1 + 1) c _ Hr H3).
    replace (p + 1 + 1 + 1) with (p + 3) by lia. now rewrite Hk.
Qed.

Lemma string_app_assoc (s t u : string) : (s ++ t) ++ u = s ++ (t ++ u).
Proof. induction s as [|b s IH]; norm_app; [reflexivity | now rewrite IH]. Qed.

Lemma string_app_length (s t : string) :
  String.length (s ++ t) = String.length s + String.length t.
Proof.
  induction s as [|b s IH]; norm_app; [reflexivity|].
  cbn [String.length]. now rewrite IH.
Qed.

Lemma substring_prefix (s t : string) : substring 0 (String.length s) (s ++ t) = s.
Proof.
  induction s as [|b s IH]; norm_app.
  - destruct t; reflexivity.
  - cbn [String.length substring]. now rewrite IH.
Qed.

Lemma run_dot s t p c k :
  s = AnyCharNotNL \/ s = Esc "." ->
  run s (Thread p ("." ++ t) c) k = k (Thread (p + 1) t c).
Proof.
  intros [-> | ->]; norm_app.
  - now apply run_any_ascii.
  - apply run_char_ok; [now right | reflexivity].
Qed.

(** One [(?:[0-9]{1,3}.)] group in front of an octet and a dot. *)
Lemma run_octet_dot r s o t p c k x :
  r = Digit09 \/ r = PerlDigit ->
  s = AnyCharNotNL \/ s = Esc "." ->
  octet o = true ->
  k (Thread (p + String.length o + 1) t c) = Some x ->
  run (Group (Concat (Repeat r 1 3) s)) (Thread p (o ++ "." ++ t) c) k = Some x.
Proof.
  intros Hr Hs Ho Hk. cbn [run].
  change (run (Repeat r 1 3) (Thread p (o ++ "." ++ t) c)
            (fun th' => run s th' k) = Some x).
  apply run_octet; [assumption | assumption | reflexivity |].
  now rewrite (run_dot s t _ c k Hs).
Qed.

(** The body of the first capture group of both patterns in front of a
    dotted quad that no digit follows. *)
Lemma run_quad r s a b c d t p cp k x :
  r = Digit09 \/ r = PerlDigit ->
  s = AnyCharNotNL \/ s = Esc "." ->
  octet a = true -> octet b = true -> octet c = true -> octet d = true ->
  leading_digit t = false ->
  k (Thread (p + String.length (dotted_quad a b c d)) t cp) = Some x ->
  run (Concat (Repeat (Group (Concat (Repeat r 1 3) s)) 3 3) (Repeat r 1 3))
    (Thread p (dotted_quad a b c d ++ t) cp) k = Some x.
Proof.
  intros Hr Hs Ha Hb Hc Hd Ht Hk.
  unfold dotted_quad in *. rewrite !string_app_length in Hk.
  cbn [String.length] in Hk.
  rewrite !string_app_assoc.
  cbn [run req_loop Nat.sub opt_loop].
  change (run (Group (Concat (Repeat r 1 3) s))
            (Thread p (a ++ "." ++ b ++ "." ++ c ++ "." ++ d ++ t) cp)
            (fun th1 => run (Group (Concat (Repeat r 1 3) s)) th1
               (fun th2 => run (Group (Concat (Repeat r 1 3) s)) th2
                  (fun th3 => run (Repeat r 1 3) th3 k))) = Some x).
  apply run_octet_dot; try assumption.
  apply run_octet_dot; try assumption.
  apply run_octet_dot; try assumption.
  apply run_octet; try assumption.
  rewrite <- Hk. f_equal. f_equal. lia.
Qed.

Lemma search_here r n p s c :
  match_at r p s = Some c -> search r n p s = Some c.
Proof. intros Hm. destruct n; cbn [search]; now rewrite Hm. Qed.

Lemma string_app_nil_r (s : string) : s ++ "" = s.
Proof. induction s as [|b s IH]; norm_app; [reflexivity | now rewrite IH]. Qed.

Lemma run_alt_l r1 r2 th k x :
  run r1 th k = Some x -> run (Alternate r1 r2) th k = Some x.
Proof. intros Hr. cbn [run]. now rewrite Hr. Qed.

Lemma run_alt_r r1 r2 th k :
  (exists x, run r2 th k = Some x) ->
  exists y, run (Alternate r1 r2) th k = Some y.
Proof.
  intros [x Hr]. cbn [run]. destruct (run r1 th k); cbn [orelse]; eauto.
Qed.

Lemma run_begin r s c k :
  run (Concat BeginText r) (Thread 0 s c) k = run r (Thread 0 s c) k.
Proof. reflexivity. Qed.

Lemma run_capture i r th k :
  run (Capture i r) th k
  = run r th (fun th' =>
      k (Thread (pos th') (rest th') (<[i := (pos th, pos th')]> (cap th')))).
Proof. reflexivity. Qed.

Lemma run_concat r1 r2 th k :
  run (Concat r1 r2) th k = run r1 th (fun th' => run r2 th' k).
Proof. reflexivity. Qed.

(** *** The classification pattern on a dotted quad *)

Lemma classify_dotted_quad a b c d :
  octet a = true -> octet b = true -> octet c = true -> octet d = true ->
  MatchString classify_regex (dotted_quad a b c d) = true.
Proof.
  intros Ha Hb Hc Hd. unfold MatchString, find.
  erewrite search_here; [reflexivity|].
  unfold match_at, classify_regex.
  apply run_alt_l. rewrite run_begin, run_capture.
  rewrite <- (string_app_nil_r (dotted_quad a b c d)) at 1.
  apply run_quad; try assumption; try (now left); reflexivity.
Qed.

(** *** The extraction pattern on a dotted quad with a route domain *)

Lemma star_digits rd : forall n p c k x,
  all_digits rd = true ->
  String.length rd <= n ->
  k (Thread (p + String.length rd) "" c) = Some x ->
  star_loop (run PerlDigit) n (Thread p rd c) k = Some x.
Proof.
  induction rd as [|b rd IH]; intros n p c k x Hall Hlen Hk.
  - cbn [String.length] in Hk. rewrite Nat.add_0_r in Hk.
    destruct n; cbn [star_loop]; [exact Hk|].
    rewrite (run_digit_fail PerlDigit "" p c); [exact Hk | now right | reflexivity].
  - cbn [all_digits] in Hall. apply andb_prop in Hall as [Hb Hall].
    cbn [String.length] in Hlen, Hk.
    destruct n as [|n]; [lia|]. cbn [star_loop].
    rewrite (run_digit_ok PerlDigit b rd p c); [| now right | assumption].
    cbn [pos].
    replace (Nat.ltb p (p + 1)) with true by (symmetry; apply Nat.ltb_lt; lia).
    erewrite IH; [reflexivity | assumption | lia |].
    rewrite <- Hk. f_equal. f_equal. lia.
Qed.

Lemma run_route_domain sfx p c k x :
  route_domain_suffix sfx ->
  k (Thread (p + String.length sfx) "" c) = Some x ->
  run (Quest (Group (Concat (Esc "%") (Plus PerlDigit)))) (Thread p sfx c) k = Some x.
Proof.
  intros [-> | (rd & -> & Hne & Hall)] Hk.
  - cbn [String.length] in Hk. rewrite Nat.add_0_r in Hk.
    cbn [run opt_loop]. unfold one_rune. cbn [rest DecodeRuneInString orelse].
    exact Hk.
  - destruct rd as [|b rd]; [congruence|].
    cbn [all_digits] in Hall. apply andb_prop in Hall as [Hb Hall].
    rewrite string_app_length in Hk. cbn [String.length] in Hk.
    change (run (Quest (Group (Concat (Esc "%") (Plus PerlDigit)))) (Thread p ("%" ++ String b rd) c) k)
      with (orelse
              (run (Esc "%") (Thread p ("%" ++ String b rd) c)
                 (fun th1 => run PerlDigit th1
                    (fun th2 => star_loop (run PerlDigit) (String.length (rest th2)) th2 k)))
              (k (Thread p ("%" ++ String b rd) c))).
    norm_app.
    rewrite (run_char_ok (Esc "%") "%"); [| now right | reflexivity].
    rewrite (run_digit_ok PerlDigit b rd); [| now right | assumption].
    cbn [rest].
    erewrite star_digits; [reflexivity | assumption | lia |].
    rewrite <- Hk. f_equal. f_equal. lia.
Qed.

Lemma route_domain_no_leading_digit sfx :
  route_domain_suffix sfx -> leading_digit sfx = false.
Proof. intros [-> | (rd & -> & _)]; reflexivity. Qed.

Lemma extract_find a b c d sfx :
  octet a = true -> octet b = true -> octet c = true -> octet d = true ->
  route_domain_suffix sfx ->
  find extract_regex (dotted_quad a b c d ++ sfx)
  = Some (<[0 := (0, String.length (dotted_quad a b c d ++ sfx))]>
            (<[1 := (0, String.length (dotted_quad a b c d))]> ∅)).
Proof.
  intros Ha Hb Hc Hd Hs. unfold find.
  apply search_here. unfold match_at, extract_regex.
  rewrite run_concat, run_capture.
  apply run_quad; try assumption; try (now left); try (now right).
  - now apply route_domain_no_leading_digit.
  - cbn [pos rest cap].
    apply run_route_domain; [assumption|].
    cbn [pos cap]. now rewrite string_app_length.
Qed.

(** [FindStringSubmatch] on such an address: the whole address, then the
    dotted quad without its suffix. *)
Lemma extract_dotted_quad a b c d sfx :
  octet a = true -> octet b = true -> octet c = true -> octet d = true ->
  route_domain_suffix sfx ->
  FindStringSubmatch extract_regex (dotted_quad a b c d ++ sfx)
  = Some [dotted_quad a b c d ++ sfx; dotted_quad a b c d].
Proof.
  intros Ha Hb Hc Hd Hs. unfold FindStringSubmatch.
  rewrite (extract_find a b c d sfx Ha Hb Hc Hd Hs).
  change (seq 0 (S (NumSubexp extract_regex))) with [0; 1].
  cbn [List.map]. rewrite lookup_insert_eq.
  rewrite lookup_insert_ne by lia. rewrite lookup_insert_eq.
  rewrite !Nat.sub_0_r. rewrite substring_prefix.
  rewrite <- (string_app_nil_r (dotted_quad a b c d ++ sfx)) at 2.
  now rewrite substring_prefix.
Qed.

(** *** The classification pattern on an address with a colon *)

Lemma utf8_size_bounds b t : 1 <= utf8_size b t <= S (String.length t).
Proof.
  unfold utf8_size.
  repeat match goal with
         | |- context [if ?c then _ else _] => destruct c
         | |- context [match ?s with EmptyString => _ | String _ _ => _ end] =>
             destruct s
         end; cbn [String.length]; lia.
Qed.

Lemma skip_length n : forall s, String.length (skip n s) = String.length s - n.
Proof.
  induction n as [|n IH]; intros [|b s]; cbn [skip String.length]; auto.
Qed.

Lemma no_newline_skip n : forall s, no_newline s = true -> no_newline (skip n s) = true.
Proof.
  induction n as [|n IH]; intros [|b s] Hs; cbn [skip]; auto.
  cbn [no_newline] in Hs. apply andb_prop in Hs as [_ Hs]. auto.
Qed.

Lemma skip_app n : forall s t,
  n <= String.length s -> skip n (s ++ t) = skip n s ++ t.
Proof.
  induction n as [|n IH]; intros s t Hn.
  - reflexivity.
  - destruct s as [|b s]; cbn [String.length] in Hn; [lia|].
    norm_app. cbn [skip]. apply IH. lia.
Qed.

(** A greedy [.*] in front of text without a newline: the preferred thread
    runs to the end of the text. *)
Lemma star_any_to_end n : forall u p c k x,
  no_newline u = true ->
  String.length u <= n ->
  k (Thread (p + String.length u) "" c) = Some x ->
  star_loop (run AnyCharNotNL) n (Thread p u c) k = Some x.
Proof.
  induction n as [|n IH]; intros u p c k x Hnl Hlen Hk.
  - destruct u; cbn [String.length] in *; [|lia].
    rewrite Nat.add_0_r in Hk. exact Hk.
  - cbn [star_loop run]. unfold one_rune. cbn [rest pos cap].
    destruct u as [|b t].
    + cbn [DecodeRuneInString orelse String.length] in *.
      rewrite Nat.add_0_r in Hk. exact Hk.
    + cbn [no_newline] in Hnl. apply andb_prop in Hnl as [Hb Hnl].
      cbn [String.length] in Hlen, Hk.
      cbn [DecodeRuneInString].
      destruct (byte_val b <? 128)%N.
      * cbn [rune_not_nl]. rewrite Hb.
        replace (Nat.ltb p (p + 1)) with true by (symmetry; apply Nat.ltb_lt; lia).
        erewrite IH; [reflexivity | assumption | lia |].
        rewrite <- Hk. f_equal. f_equal. lia.
      * cbn [rune_not_nl].
        pose proof (utf8_size_bounds b t) as Hw.
        replace (Nat.ltb p (p + utf8_size b t)) with true
          by (symmetry; apply Nat.ltb_lt; lia).
        erewrite IH; [reflexivity | | |].
        -- now apply no_newline_skip.
        -- rewrite skip_length. lia.
        -- rewrite skip_length. rewrite <- Hk. f_equal. f_equal. lia.
Qed.

Lemma star_loop_some body n th k x :
  k th = Some x -> exists y, star_loop body n th k = Some y.
Proof.
  intros Hk. destruct n; cbn [star_loop]; [eauto|].
  destruct (body th _); cbn [orelse]; eauto.
Qed.

Lemma in_range_colon lo hi : (128 <= lo)%N -> in_range lo hi ":" = false.
Proof.
  intros Hlo. unfold in_range. apply andb_false_intro1.
  apply N.leb_gt. change (byte_val ":") with 58%N. lia.
Qed.

Ltac split_size :=
  unfold utf8_size;
  repeat match goal with
         | |- context [(?a <? ?b)%N] => destruct (a <? b)%N
         | |- context [(?a =? ?b)%N] => destruct (a =? b)%N
         end;
  rewrite ?in_range_colon by lia;
  rewrite ?andb_false_r;
  cbn [andb];
  repeat match goal with
         | |- context [if ?c then _ else _] => destruct c
         | |- context [match ?s with EmptyString => _ | String _ _ => _ end] =>
             destruct s
         end;
  cbn [andb].

(** A rune never reaches over a colon: continuation bytes are at least
    0x80. *)
Lemma utf8_size_colon b pre u :
  utf8_size b (pre ++ ":" ++ u) - 1 <= String.length pre.
Proof.
  destruct pre as [|c1 [|c2 [|c3 pre]]]; norm_app; cbn [String.length].
  - split_size; lia.
  - split_size; lia.
  - split_size; lia.
  - pose proof (utf8_size_bounds b (String c1 (String c2 (String c3 (pre ++ String ":" u))))) as Hb.
    revert Hb. split_size; lia.
Qed.

(** The search reaches the offset of every colon. *)
Lemma search_reach r u x m : forall pre n p,
  String.length pre <= m ->
  String.length (pre ++ ":" ++ u) <= n ->
  match_at r (p + String.length pre) (":" ++ u) = Some x ->
  exists y, search r n p (pre ++ ":" ++ u) = Some y.
Proof.
  induction m as [|m IH]; intros pre n p Hm Hn Hx.
  - destruct pre; cbn [String.length] in Hm; [|lia].
    cbn [String.length] in Hx. rewrite Nat.add_0_r in Hx.
    rewrite string_app_nil. exists x. apply search_here. exact Hx.
  - destruct pre as [|b pre].
    + cbn [String.length] in Hx. rewrite Nat.add_0_r in Hx.
      rewrite string_app_nil. exists x. apply search_here. exact Hx.
    + change (String b pre ++ ":" ++ u) with (String b (pre ++ ":" ++ u)) in *.
      cbn [String.length] in Hm, Hn, Hx.
      destruct n as [|n]; [lia|]. cbn [search].
      destruct (match_at r p (String b (pre ++ ":" ++ u))); [eauto|].
      cbn [DecodeRuneInString].
      destruct (byte_val b <? 128)%N.
      * apply IH; [lia | lia |].
        rewrite <- Hx. f_equal. lia.
      * pose proof (utf8_size_colon b pre u) as Hc.
        pose proof (utf8_size_bounds b (pre ++ ":" ++ u)) as Hb.
        rewrite skip_app by exact Hc.
        apply IH.
        -- rewrite skip_length. lia.
        -- rewrite string_app_length, skip_length.
           rewrite string_app_length in Hn. lia.
        -- rewrite skip_length. rewrite <- Hx. f_equal. lia.
Qed.

Lemma run_star r th k :
  run (Star r) th k = star_loop (run r) (String.length (rest th)) th k.
Proof. reflexivity. Qed.

Lemma run_end c p k :
  run EndText (Thread p "" c) k = k (Thread p "" c).
Proof. reflexivity. Qed.

(** Every address that holds a colon with no newline after it is matched. *)
Lemma classify_colon pre u :
  no_newline u = true ->
  MatchString classify_regex (pre ++ ":" ++ u) = true.
Proof.
  intros Hnl. unfold MatchString, find.
  assert (Hat : exists x,
    match_at classify_regex (0 + String.length pre) (":" ++ u) = Some x).
  { unfold match_at, classify_regex.
    apply run_alt_r. rewrite run_concat, run_capture, run_concat, run_star.
    eapply star_loop_some.
    rewrite run_concat. norm_app.
    rewrite (run_char_ok (Lit ":") ":"); [| now left | reflexivity].
    rewrite run_star. cbn [rest].
    apply star_any_to_end; [assumption | lia |].
    cbn [pos rest cap]. rewrite run_end. reflexivity. }
  destruct Hat as [x Hx].
  destruct (search_reach classify_regex u x (String.length pre) pre
              (String.length (pre ++ ":" ++ u)) 0) as [y Hy]; try lia.
  - exact Hx.
  - now rewrite Hy.
Qed.

(** ** Running the handlers *)

Lemma bind_Return {R A B} (m : Go R A) (f : A -> Go R B) w a w' :
  m w = (Return a, w') -> bind m f w = f a w'.
Proof. intros Hm. unfold bind. now rewrite Hm. Qed.

Lemma bind_Panic {R A B} (m : Go R A) (f : A -> Go R B) w msg w' :
  m w = (Panic msg, w') -> bind m f w = (Panic msg, w').
Proof. intros Hm. unfold bind. now rewrite Hm. Qed.

Section HandlerSteps.
Context {R : Type} `{BigIP R}.
Implicit Types w : World R.

Lemma get_string_ok key s w :
  rd_get (data w) key = VString s -> get_string key w = (Return s, w).
Proof. intros Hk. unfold get_string, bind, Get. now rewrite Hk. Qed.

Lemma get_int_ok key n w :
  rd_get (data w) key = VInt n -> get_int key w = (Return n, w).
Proof. intros Hk. unfold get_int, bind, Get. now rewrite Hk. Qed.

Lemma get_string_nil key w :
  rd_get (data w) key = VNil ->
  get_string key w
  = (Panic "interface conversion: interface {} is nil, not string", w).
Proof. intros Hk. unfold get_string, bind, Get. now rewrite Hk. Qed.

Lemma logged_eq {A} (c : Call) (f : R -> A * R) w :
  logged c f w = (Return (fst (f (remote w))), after_call w c (snd (f (remote w)))).
Proof. unfold logged, after_call. now destruct (f (remote w)). Qed.

Lemma client_GetNode_eq name w :
  client_GetNode name w
  = (Return (fst (GetNode name (remote w))),
     after_call w (CallGetNode name) (snd (GetNode name (remote w)))).
Proof.
  unfold client_GetNode, logged, after_call.
  now destruct (GetNode name (remote w)).
Qed.

(** *** read *)

Lemma read_fetch_error w node e r' :
  GetNode (rd_id (data w)) (remote w) = ((node, Some e), r') ->
  resourceBigipLtmNodeRead w
  = (Return (Some e), after_call w (CallGetNode (rd_id (data w))) r').
Proof.
  intros Hg. unfold resourceBigipLtmNodeRead.
  unfold bind at 1. cbn [Id].
  erewrite bind_Return by apply client_GetNode_eq.
  rewrite Hg. reflexivity.
Qed.

Lemma read_not_found w r' :
  GetNode (rd_id (data w)) (remote w) = ((None, None), r') ->
  resourceBigipLtmNodeRead w
  = (Return None, with_id "" (after_call w (CallGetNode (rd_id (data w))) r')).
Proof.
  intros Hg. unfold resourceBigipLtmNodeRead.
  unfold bind at 1. cbn [Id].
  erewrite bind_Return by apply client_GetNode_eq.
  rewrite Hg. reflexivity.
Qed.

Lemma read_found w node r' address :
  GetNode (rd_id (data w)) (remote w) = ((Some node, None), r') ->
  (FQDN_Name node <> "" /\ address = FQDN_Name node) \/
  (FQDN_Name node = "" /\
   exists whole rest_, FindStringSubmatch extract_regex (Address node)
                       = Some (whole :: address :: rest_)) ->
  resourceBigipLtmNodeRead w
  = (Return None,
     refreshed address node (after_call w (CallGetNode (rd_id (data w))) r')).
Proof.
  intros Hg Haddr. unfold resourceBigipLtmNodeRead.
  unfold bind at 1. cbn [Id].
  erewrite bind_Return by apply client_GetNode_eq.
  rewrite Hg. cbn [fst snd].
  destruct Haddr as [[Hne ->] | [He (whole & rest_ & Hf)]].
  - apply String.eqb_neq in Hne. rewrite Hne. cbn [negb].
    reflexivity.
  - rewrite He. cbn [String.eqb negb]. rewrite Hf. reflexivity.
Qed.

Lemma read_unmatched w node r' :
  GetNode (rd_id (data w)) (remote w) = ((Some node, None), r') ->
  FQDN_Name node = "" ->
  FindStringSubmatch extract_regex (Address node) = None ->
  resourceBigipLtmNodeRead w
  = (Panic "runtime error: index out of range",
     after_call w (CallGetNode (rd_id (data w))) r').
Proof.
  intros Hg He Hf. unfold resourceBigipLtmNodeRead.
  unfold bind at 1. cbn [Id].
  erewrite bind_Return by apply client_GetNode_eq.
  rewrite Hg. cbn [fst snd].
  rewrite He. cbn [String.eqb negb]. rewrite Hf. reflexivity.
Qed.

End HandlerSteps.

(** ** Typed resource data *)

Lemma has_type_string v :
  has_type TypeString v = true ->
  v = VString (match v with VString s => s | _ => "" end).
Proof. destruct v; cbn; congruence. Qed.

Lemma has_type_int v :
  has_type TypeInt v = true ->
  v = VInt (match v with VInt n => n | _ => 0%Z end).
Proof. destruct v; cbn; congruence. Qed.

Lemma typed_inv d :
  typed d = true ->
  rd_get d "name" = VString (attr_string d "name") /\
  rd_get d "address" = VString (attr_string d "address") /\
  rd_get d "rate_limit" = VString (attr_string d "rate_limit") /\
  rd_get d "connection_limit" = VInt (attr_int d "connection_limit") /\
  rd_get d "dynamic_ratio" = VInt (attr_int d "dynamic_ratio") /\
  rd_get d "ratio" = VInt (attr_int d "ratio") /\
  rd_get d "monitor" = VString (attr_string d "monitor") /\
  rd_get d "state" = VString (attr_string d "state").
Proof.
  unfold typed. cbn [forallb node_schema fst snd scalar Type_ negb orb].
  intros Ht.
  repeat match type of Ht with
         | (_ && _) = true => let Hx := fresh "Hx" in apply andb_prop in Ht as [Hx Ht]
         end.
  unfold attr_string, attr_int.
  repeat split;
    first [ now apply has_type_string | now apply has_type_int ].
Qed.

Section HandlerRuns.
Context {R : Type} `{BigIP R}.
Implicit Types w : World R.

(** *** exists *)

Lemma exists_fetch_error w node e r' :
  GetNode (rd_id (data w)) (remote w) = ((node, Some e), r') ->
  resourceBigipLtmNodeExists w
  = (Return (false, Some e), after_call w (CallGetNode (rd_id (data w))) r').
Proof.
  intros Hg. unfold resourceBigipLtmNodeExists.
  unfold bind at 1. cbn [Id].
  erewrite bind_Return by apply client_GetNode_eq.
  rewrite Hg. reflexivity.
Qed.

Lemma exists_not_found w r' :
  GetNode (rd_id (data w)) (remote w) = ((None, None), r') ->
  resourceBigipLtmNodeExists w
  = (Return (false, None),
     with_id "" (after_call w (CallGetNode (rd_id (data w))) r')).
Proof.
  intros Hg. unfold resourceBigipLtmNodeExists.
  unfold bind at 1. cbn [Id].
  erewrite bind_Return by apply client_GetNode_eq.
  rewrite Hg. reflexivity.
Qed.

Lemma exists_found w node r' :
  GetNode (rd_id (data w)) (remote w) = ((Some node, None), r') ->
  resourceBigipLtmNodeExists w
  = (Return (true, None), after_call w (CallGetNode (rd_id (data w))) r').
Proof.
  intros Hg. unfold resourceBigipLtmNodeExists.
  unfold bind at 1. cbn [Id].
  erewrite bind_Return by apply client_GetNode_eq.
  rewrite Hg. reflexivity.
Qed.

(** *** update *)

Lemma update_static w :
  typed (data w) = true ->
  MatchString classify_regex (attr_string (data w) "address") = true ->
  resourceBigipLtmNodeUpdate w = resourceBigipLtmNodeRead w.
Proof.
  intros Ht Hm.
  destruct (typed_inv _ Ht) as (Hn & Ha & Hrl & Hcl & Hdr & Hr & Hmo & Hst).
  unfold resourceBigipLtmNodeUpdate.
  unfold bind at 1. cbn [Id].
  erewrite bind_Return by (apply get_string_ok; exact Ha).
  rewrite Hm.
  erewrite bind_Return by (apply get_int_ok; exact Hcl).
  erewrite bind_Return by (apply get_int_ok; exact Hdr).
  erewrite bind_Return by (apply get_string_ok; exact Hmo).
  erewrite bind_Return by (apply get_string_ok; exact Hrl).
  erewrite bind_Return by (apply get_string_ok; exact Hst).
  reflexivity.
Qed.

Lemma update_fqdn w :
  typed (data w) = true ->
  MatchString classify_regex (attr_string (data w) "address") = false ->
  resourceBigipLtmNodeUpdate w
  = let id := rd_id (data w) in
    let payload := modify_payload (data w) in
    let w' := after_call w (CallModifyNode id payload)
                (snd (ModifyNode id payload (remote w))) in
    match fst (ModifyNode id payload (remote w)) with
    | Some e => (Return (Some e), w')
    | None => resourceBigipLtmNodeRead w'
    end.
Proof.
  intros Ht Hm.
  destruct (typed_inv _ Ht) as (Hn & Ha & Hrl & Hcl & Hdr & Hr & Hmo & Hst).
  unfold resourceBigipLtmNodeUpdate.
  unfold bind at 1. cbn [Id].
  erewrite bind_Return by (apply get_string_ok; exact Ha).
  rewrite Hm.
  erewrite bind_Return by (apply get_int_ok; exact Hcl).
  erewrite bind_Return by (apply get_int_ok; exact Hdr).
  erewrite bind_Return by (apply get_string_ok; exact Hmo).
  erewrite bind_Return by (apply get_string_ok; exact Hrl).
  erewrite bind_Return by (apply get_string_ok; exact Hst).
  cbn zeta. unfold bind, client_ModifyNode, logged, after_call, modify_payload.
  destruct (ModifyNode _ _ _) as [[e|] r']; reflexivity.
Qed.

End HandlerRuns.

Section CreateRuns.
Context {R : Type} `{BigIP R}.
Implicit Types w : World R.

Lemma create_static w :
  typed (data w) = true ->
  MatchString classify_regex (attr_string (data w) "address") = true ->
  resourceBigipLtmNodeCreate w
  = let d := data w in
    let w' := after_call w (static_create_call d)
                (snd (static_create d (remote w))) in
    match fst (static_create d (remote w)) with
    | Some e => (Return (Some e), w')
    | None => resourceBigipLtmNodeRead (with_id (attr_string d "name") w')
    end.
Proof.
  intros Ht Hm.
  destruct (typed_inv _ Ht) as (Hn & Ha & Hrl & Hcl & Hdr & Hr & Hmo & Hst).
  unfold resourceBigipLtmNodeCreate.
  erewrite bind_Return by (apply get_string_ok; exact Hn).
  erewrite bind_Return by (apply get_string_ok; exact Ha).
  erewrite bind_Return by (apply get_string_ok; exact Hrl).
  erewrite bind_Return by (apply get_int_ok; exact Hcl).
  erewrite bind_Return by (apply get_int_ok; exact Hdr).
  erewrite bind_Return by (apply get_int_ok; exact Hr).
  erewrite bind_Return by (apply get_string_ok; exact Hmo).
  erewrite bind_Return by (apply get_string_ok; exact Hst).
  cbn zeta. rewrite Hm.
  unfold bind at 1, client_CreateNode, logged, after_call, static_create,
    static_create_call.
  destruct (CreateNode _ _ _ _ _ _ _ _ _) as [[e|] r']; reflexivity.
Qed.

Lemma create_fqdn w :
  typed (data w) = true ->
  MatchString classify_regex (attr_string (data w) "address") = false ->
  resourceBigipLtmNodeCreate w
  = let d := data w in
    (err <-
       (ifaceCount <- get_int "fqdn.#" ;;
        create_fqdn_loop (attr_string d "name") (attr_string d "address")
          (attr_string d "rate_limit") (attr_int d "connection_limit")
          (attr_int d "dynamic_ratio") (attr_int d "ratio")
          (attr_string d "monitor") (attr_string d "state")
          (Z.to_nat ifaceCount) 0 None) ;;
     create_finish (attr_string d "name") err) w.
Proof.
  intros Ht Hm.
  destruct (typed_inv _ Ht) as (Hn & Ha & Hrl & Hcl & Hdr & Hr & Hmo & Hst).
  unfold resourceBigipLtmNodeCreate.
  erewrite bind_Return by (apply get_string_ok; exact Hn).
  erewrite bind_Return by (apply get_string_ok; exact Ha).
  erewrite bind_Return by (apply get_string_ok; exact Hrl).
  erewrite bind_Return by (apply get_int_ok; exact Hcl).
  erewrite bind_Return by (apply get_int_ok; exact Hdr).
  erewrite bind_Return by (apply get_int_ok; exact Hr).
  erewrite bind_Return by (apply get_string_ok; exact Hmo).
  erewrite bind_Return by (apply get_string_ok; exact Hst).
  cbn zeta. rewrite Hm. reflexivity.
Qed.

(** read logs its fetch and nothing else. *)
Lemma read_calls w :
  calls (snd (resourceBigipLtmNodeRead w))
  = (calls w ++ [CallGetNode (rd_id (data w))])%list.
Proof.
  destruct (GetNode (rd_id (data w)) (remote w)) as [[node [e|]] r'] eqn:Hg.
  - now rewrite (read_fetch_error w node e r' Hg).
  - destruct node as [node|].
    + destruct (String.eqb (FQDN_Name node) "") eqn:Hq.
      * apply String.eqb_eq in Hq.
        destruct (FindStringSubmatch extract_regex (Address node))
          as [[|whole [|a l]]|] eqn:Hf.
        -- unfold resourceBigipLtmNodeRead. unfold bind at 1. cbn [Id].
           erewrite bind_Return by apply client_GetNode_eq.
           rewrite Hg. cbn [fst snd]. rewrite Hq. cbn [String.eqb negb].
           rewrite Hf. reflexivity.
        -- unfold resourceBigipLtmNodeRead. unfold bind at 1. cbn [Id].
           erewrite bind_Return by apply client_GetNode_eq.
           rewrite Hg. cbn [fst snd]. rewrite Hq. cbn [String.eqb negb].
           rewrite Hf. reflexivity.
        -- erewrite (read_found w node r' a Hg); [reflexivity|].
           right. eauto.
        -- now rewrite (read_unmatched w node r' Hg Hq Hf).
      * apply String.eqb_neq in Hq.
        erewrite (read_found w node r' (FQDN_Name node) Hg); [reflexivity|].
        now left.
    + now rewrite (read_not_found w r' Hg).
Qed.

Lemma get_string_cases key w :
  (exists s, get_string key w = (Return s, w)) \/
  (exists msg, get_string key w = (Panic msg, w)).
Proof.
  unfold get_string, bind, Get.
  destruct (rd_get (data w) key); cbn; eauto.
Qed.

Lemma get_int_cases key w :
  (exists n, get_int key w = (Return n, w)) \/
  (exists msg, get_int key w = (Panic msg, w)).
Proof.
  unfold get_int, bind, Get.
  destruct (rd_get (data w) key); cbn; eauto.
Qed.

(** The loop of the FQDN branch issues FQDN creates only and leaves the
    resource data alone. *)
Lemma create_fqdn_loop_calls name address rate_limit connection_limit
    dynamic_ratio ratio monitor state n : forall i err w,
  exists cs,
    calls (snd (create_fqdn_loop name address rate_limit connection_limit
                  dynamic_ratio ratio monitor state n i err w))
    = (calls w ++ cs)%list /\
    Forall (fun c => is_fqdn_create c = true) cs /\
    data (snd (create_fqdn_loop name address rate_limit connection_limit
                 dynamic_ratio ratio monitor state n i err w)) = data w.
Proof.
  induction n as [|n IH]; intros i err w.
  - exists []. cbn. rewrite app_nil_r. auto.
  - cbn [create_fqdn_loop].
    destruct (get_string_cases ("fqdn." ++ itoa i ++ ".interval") w)
      as [[interval Hi] | [msg Hi]];
      [ erewrite bind_Return by exact Hi
      | erewrite bind_Panic by exact Hi;
        exists []; cbn; rewrite app_nil_r; now auto ].
    destruct (get_int_cases ("fqdn." ++ itoa i ++ ".down_interval") w)
      as [[down_interval Hd] | [msg Hd]];
      [ erewrite bind_Return by exact Hd
      | erewrite bind_Panic by exact Hd;
        exists []; cbn; rewrite app_nil_r; now auto ].
    destruct (get_string_cases ("fqdn." ++ itoa i ++ ".auto_populate") w)
      as [[auto_populate Ha] | [msg Ha]];
      [ erewrite bind_Return by exact Ha
      | erewrite bind_Panic by exact Ha;
        exists []; cbn; rewrite app_nil_r; now auto ].
    unfold client_CreateFQDNNode.
    erewrite bind_Return by apply logged_eq.
    match goal with
    | |- context [create_fqdn_loop _ _ _ _ _ _ _ _ n (S i) ?e ?w1] =>
        destruct (IH (S i) e w1) as (cs & Hc & Hall & Hdt)
    end.
    eexists (_ :: cs). rewrite Hc, Hdt. cbn [calls data after_call].
    rewrite <- app_assoc. split; [reflexivity|]. split; [|reflexivity].
    constructor; [reflexivity | assumption].
Qed.

End CreateRuns.

(* ===================================================================== *)
(** * Fetching: not found, errors, existence (C6) *)
(* ===================================================================== *)

Section Fetch.
Context {R : Type} `{BigIP R}.
Implicit Types w : World R.

Lemma read_not_found_again n : forall w,
  GetNode (rd_id (data w)) (remote w) = ((None, None), remote w) ->
  GetNode "" (remote w) = ((None, None), remote w) ->
  fst (repeat_go resourceBigipLtmNodeRead n w) = repeat (Return None) n.
Proof.
  induction n as [|n IH]; intros w Hid He; [reflexivity|].
  cbn [repeat_go repeat].
  rewrite (read_not_found w (remote w) Hid).
  specialize (IH (with_id "" (after_call w (CallGetNode (rd_id (data w))) (remote w)))).
  cbn [with_id after_call data remote rd_id] in IH.
  specialize (IH He He).
  destruct (repeat_go _ n _) as [os w'']. cbn [fst] in *. now rewrite IH.
Qed.

Lemma exists_not_found_again n : forall w,
  GetNode (rd_id (data w)) (remote w) = ((None, None), remote w) ->
  GetNode "" (remote w) = ((None, None), remote w) ->
  fst (repeat_go resourceBigipLtmNodeExists n w)
  = repeat (Return (false, None)) n.
Proof.
  induction n as [|n IH]; intros w Hid He; [reflexivity|].
  cbn [repeat_go repeat].
  rewrite (exists_not_found w (remote w) Hid).
  specialize (IH (with_id "" (after_call w (CallGetNode (rd_id (data w))) (remote w)))).
  cbn [with_id after_call data remote rd_id] in IH.
  specialize (IH He He).
  destruct (repeat_go _ n _) as [os w'']. cbn [fst] in *. now rewrite IH.
Qed.

End Fetch.

(** C6.  When the device does not know the identifier ([GetNode] answers
    neither a node nor an error), read succeeds after clearing the
    identifier and exists answers [(false, nil)]; a fetch error is returned
    as it is by both; exists answers true for a node that is found; and on
    a device that keeps answering "not found", any number of reads or
    existence checks in a row give these same outcomes. *)
Theorem fetch_outcomes {R : Type} `{BigIP R} (w : World R) :
  let id := rd_id (data w) in
  (forall node e r',
      GetNode id (remote w) = ((node, Some e), r') ->
      resourceBigipLtmNodeRead w
      = (Return (Some e), after_call w (CallGetNode id) r') /\
      resourceBigipLtmNodeExists w
      = (Return (false, Some e), after_call w (CallGetNode id) r')) /\
  (forall r',
      GetNode id (remote w) = ((None, None), r') ->
      resourceBigipLtmNodeRead w
      = (Return None, with_id "" (after_call w (CallGetNode id) r')) /\
      resourceBigipLtmNodeExists w
      = (Return (false, None), with_id "" (after_call w (CallGetNode id) r'))) /\
  (forall node r',
      GetNode id (remote w) = ((Some node, None), r') ->
      resourceBigipLtmNodeExists w
      = (Return (true, None), after_call w (CallGetNode id) r')) /\
  (GetNode id (remote w) = ((None, None), remote w) ->
   GetNode "" (remote w) = ((None, None), remote w) ->
   forall n,
     fst (repeat_go resourceBigipLtmNodeRead n w) = repeat (Return None) n /\
     fst (repeat_go resourceBigipLtmNodeExists n w)
     = repeat (Return (false, None)) n).
Proof.
  cbn zeta. repeat split.
  - now apply read_fetch_error with (node := node).
  - now apply exists_fetch_error with (node := node).
  - now apply read_not_found.
  - now apply exists_not_found.
  - intros node r' Hg. now apply exists_found with (node := node).
  - now apply read_not_found_again.
  - now apply exists_not_found_again.
Qed.

(** The four cases of [fetch_outcomes] on the in-memory device: a failing
    fetch, an unknown node (three calls in a row), a known node. *)
Lemma fetch_outcomes_witness :
  resourceBigipLtmNodeRead
    (start (resource "node1" "10.0.0.5" []) (MkDevice ∅ [] (Some (Error "timeout"))))
  = (Return (Some (Error "timeout")),
     after_call (start (resource "node1" "10.0.0.5" [])
                   (MkDevice ∅ [] (Some (Error "timeout"))))
       (CallGetNode "node1") (MkDevice ∅ [] (Some (Error "timeout")))) /\
  resourceBigipLtmNodeExists (start (resource "node1" "10.0.0.5" []) empty_device)
  = (Return (false, None),
     with_id "" (after_call (start (resource "node1" "10.0.0.5" []) empty_device)
                   (CallGetNode "node1") empty_device)) /\
  resourceBigipLtmNodeExists
    (start (resource "node1" "10.0.0.5" [])
       (device_with "node1" (static_node "10.0.0.5")))
  = (Return (true, None),
     after_call (start (resource "node1" "10.0.0.5" [])
                   (device_with "node1" (static_node "10.0.0.5")))
       (CallGetNode "node1") (device_with "node1" (static_node "10.0.0.5"))) /\
  fst (repeat_go resourceBigipLtmNodeRead 3
         (start (resource "node1" "10.0.0.5" []) empty_device))
  = [Return None; Return None; Return None].
Proof.
  split; [|split; [|split]].
  - exact (proj1 (proj1 (fetch_outcomes
             (start (resource "node1" "10.0.0.5" [])
                (MkDevice ∅ [] (Some (Error "timeout")))))
             None (Error "timeout") _ eq_refl)).
  - exact (proj2 (proj1 (proj2 (fetch_outcomes
             (start (resource "node1" "10.0.0.5" []) empty_device)))
             _ eq_refl)).
  - exact (proj1 (proj2 (proj2 (fetch_outcomes
             (start (resource "node1" "10.0.0.5" [])
                (device_with "node1" (static_node "10.0.0.5"))))))
             (static_node "10.0.0.5") _ eq_refl).
  - exact (proj1 (proj2 (proj2 (proj2 (fetch_outcomes
             (start (resource "node1" "10.0.0.5" []) empty_device))))
             eq_refl eq_refl 3)).
Defined.

(* ===================================================================== *)
(** * The address read stores (C7, C8) *)
(* ===================================================================== *)

Lemma refreshed_address {R} address node (w : World R) :
  address_of (refreshed address node w) = VString address.
Proof.
  unfold address_of, refreshed, refresh, rd_get. cbn [data rd_attrs].
  rewrite !lookup_insert_ne by discriminate.
  now rewrite lookup_insert_eq.
Qed.

Lemma refreshed_id {R} address node (w : World R) :
  rd_id (data (refreshed address node w)) = rd_id (data w).
Proof. reflexivity. Qed.

(** C7.  When the node the device reports has a non-empty FQDN name, read
    succeeds and the address it leaves in the resource data is that name,
    whatever the node's raw address is. *)
Theorem read_prefers_fqdn_name {R : Type} `{BigIP R} (w : World R) node r' :
  GetNode (rd_id (data w)) (remote w) = ((Some node, None), r') ->
  FQDN_Name node <> "" ->
  resourceBigipLtmNodeRead w
  = (Return None,
     refreshed (FQDN_Name node) node (after_call w (CallGetNode (rd_id (data w))) r')) /\
  address_of (snd (resourceBigipLtmNodeRead w)) = VString (FQDN_Name node).
Proof.
  intros Hg Hne.
  assert (Hr : resourceBigipLtmNodeRead w
               = (Return None,
                  refreshed (FQDN_Name node) node
                    (after_call w (CallGetNode (rd_id (data w))) r'))).
  { apply read_found; [assumption | now left]. }
  split; [exact Hr|]. rewrite Hr. apply refreshed_address.
Qed.

(** An FQDN node whose raw address is a dotted quad all the same. *)
Lemma read_prefers_fqdn_name_witness :
  address_of
    (snd (resourceBigipLtmNodeRead
            (start (resource "web" "stale.example.com" [])
               (device_with "web" (fqdn_node "10.0.0.5" "foo.example.com")))))
  = VString "foo.example.com".
Proof.
  refine (proj2 (read_prefers_fqdn_name
                   (start (resource "web" "stale.example.com" [])
                      (device_with "web" (fqdn_node "10.0.0.5" "foo.example.com")))
                   (fqdn_node "10.0.0.5" "foo.example.com") _ eq_refl _)).
  discriminate.
Defined.

Section ReadStatic.
Context {R : Type} `{BigIP R}.
Implicit Types w : World R.

(** read on a node without FQDN name whose address is a dotted quad,
    with or without a route domain. *)
Lemma read_dotted_quad w node r' a b c d sfx :
  GetNode (rd_id (data w)) (remote w) = ((Some node, None), r') ->
  FQDN_Name node = "" ->
  octet a = true -> octet b = true -> octet c = true -> octet d = true ->
  route_domain_suffix sfx ->
  Address node = dotted_quad a b c d ++ sfx ->
  resourceBigipLtmNodeRead w
  = (Return None,
     refreshed (dotted_quad a b c d) node
       (after_call w (CallGetNode (rd_id (data w))) r')).
Proof.
  intros Hg He Ha Hb Hc Hd Hs Haddr.
  apply read_found; [assumption|]. right. split; [assumption|].
  exists (dotted_quad a b c d ++ sfx), [].
  rewrite Haddr. now apply extract_dotted_quad.
Qed.

End ReadStatic.

(** C8.  For a node without FQDN name whose address is a dotted quad,
    alone or followed by [%] and a number, read stores exactly the dotted
    quad; the pattern takes "10.0.0.5" out of "10.0.0.5%2"; and creating a
    static node at "10.0.0.5" on a device that then reports it under that
    address (with or without a route domain) leaves "10.0.0.5" as the
    address. *)
Theorem read_strips_route_domain {R : Type} `{BigIP R} :
  (forall (w : World R) node r' a b c d sfx,
      GetNode (rd_id (data w)) (remote w) = ((Some node, None), r') ->
      FQDN_Name node = "" ->
      octet a = true -> octet b = true -> octet c = true -> octet d = true ->
      route_domain_suffix sfx ->
      Address node = dotted_quad a b c d ++ sfx ->
      fst (resourceBigipLtmNodeRead w) = Return None /\
      address_of (snd (resourceBigipLtmNodeRead w))
      = VString (dotted_quad a b c d)) /\
  FindStringSubmatch extract_regex "10.0.0.5%2" = Some ["10.0.0.5%2"; "10.0.0.5"] /\
  (forall (w : World R) r1 node r2 sfx,
      typed (data w) = true ->
      attr_string (data w) "address" = "10.0.0.5" ->
      static_create (data w) (remote w) = (None, r1) ->
      GetNode (attr_string (data w) "name") r1 = ((Some node, None), r2) ->
      FQDN_Name node = "" ->
      route_domain_suffix sfx ->
      Address node = "10.0.0.5" ++ sfx ->
      fst (resourceBigipLtmNodeCreate w) = Return None /\
      rd_id (data (snd (resourceBigipLtmNodeCreate w)))
      = attr_string (data w) "name" /\
      address_of (snd (resourceBigipLtmNodeCreate w)) = VString "10.0.0.5").
Proof.
  split; [|split].
  - intros w node r' a b c d sfx Hg He Ha Hb Hc Hd Hs Haddr.
    rewrite (read_dotted_quad w node r' a b c d sfx Hg He Ha Hb Hc Hd Hs Haddr).
    split; [reflexivity | apply refreshed_address].
  - apply (extract_dotted_quad "10" "0" "0" "5" "%2"); try reflexivity.
    right. exists "2". repeat split. discriminate.
  - intros w r1 node r2 sfx Ht Ha Hc Hg He Hs Haddr.
    assert (Hm : MatchString classify_regex (attr_string (data w) "address") = true)
      by (rewrite Ha; reflexivity).
    rewrite (create_static w Ht Hm). cbn zeta. rewrite Hc. cbn [fst snd].
    assert (Hr := read_dotted_quad
                    (with_id (attr_string (data w) "name")
                       (after_call w (static_create_call (data w)) r1))
                    node r2 "10" "0" "0" "5" sfx Hg He
                    eq_refl eq_refl eq_refl eq_refl Hs Haddr).
    rewrite Hr. cbn [fst snd]. repeat split. apply refreshed_address.
Qed.

(** A node reported as "192.168.1.10%3" reads back as "192.168.1.10", and
    node1 created at "10.0.0.5" on the in-memory device reads back as
    "10.0.0.5". *)
Lemma read_strips_route_domain_witness :
  address_of
    (snd (resourceBigipLtmNodeRead
            (start (resource "node1" "192.168.1.10" [])
               (device_with "node1" (static_node "192.168.1.10%3")))))
  = VString "192.168.1.10" /\
  address_of
    (snd (resourceBigipLtmNodeCreate
            (start (planned "node1" "10.0.0.5" []) empty_device)))
  = VString "10.0.0.5".
Proof.
  split.
  - refine (proj2 (proj1 (@read_strips_route_domain Device _)
             (start (resource "node1" "192.168.1.10" [])
                (device_with "node1" (static_node "192.168.1.10%3")))
             (static_node "192.168.1.10%3") _ "192" "168" "1" "10" "%3"
             eq_refl eq_refl eq_refl eq_refl eq_refl eq_refl _ eq_refl)).
    right. exists "3". repeat split. discriminate.
  - refine (proj2 (proj2 (proj2 (proj2 (@read_strips_route_domain Device _))
             (start (planned "node1" "10.0.0.5" []) empty_device)
             _ (static_node "10.0.0.5") _ ""
             eq_refl eq_refl eq_refl eq_refl eq_refl _ eq_refl))).
    now left.
Defined.

(* ===================================================================== *)
(** * update (C1, C9) *)
(* ===================================================================== *)

(** The run of update that C1 as it is written does not cover: the
    address is a domain name and the device refuses the modify call.  The
    error comes back, the log holds the modify call alone, and no read was
    run on any world. *)
Lemma update_modify_error_skips_read :
  let w := start (resource "web" "web.example.com" [])
             (MkDevice {[ "web" := fqdn_node "any6" "web.example.com" ]}
                [Some (Error "modify refused")] None) in
  MatchString classify_regex (attr_string (data w) "address") = false /\
  fst (resourceBigipLtmNodeUpdate w) = Return (Some (Error "modify refused")) /\
  calls (snd (resourceBigipLtmNodeUpdate w))
  = [CallModifyNode "web" (MkNode "" 0 0 "" "" "user-up" "")] /\
  ~ (exists w1, resourceBigipLtmNodeUpdate w = resourceBigipLtmNodeRead w1).
Proof.
  cbn zeta. split; [reflexivity|]. split; [reflexivity|]. split; [reflexivity|].
  intros [w1 Hw1].
  apply (f_equal (fun x => last (calls (snd x)))) in Hw1.
  rewrite read_calls, last_snoc in Hw1.
  vm_compute in Hw1. discriminate.
Qed.

(** C1, amended.  On typed resource data: when the address is classified
    static, update issues no modify call (the payload it built is dropped),
    it is exactly a read, and its only call is the fetch of that read; when
    the address is classified FQDN, update issues one modify call with the
    payload built from the resource data, returns the error of that call
    when it fails, and continues with a read when it succeeds. *)
Theorem update_modifies_fqdn_only {R : Type} `{BigIP R} (w : World R) :
  typed (data w) = true ->
  let id := rd_id (data w) in
  let payload := modify_payload (data w) in
  (MatchString classify_regex (attr_string (data w) "address") = true ->
   resourceBigipLtmNodeUpdate w = resourceBigipLtmNodeRead w /\
   calls (snd (resourceBigipLtmNodeUpdate w)) = (calls w ++ [CallGetNode id])%list) /\
  (MatchString classify_regex (attr_string (data w) "address") = false ->
   let w' := after_call w (CallModifyNode id payload)
               (snd (ModifyNode id payload (remote w))) in
   match fst (ModifyNode id payload (remote w)) with
   | Some e => resourceBigipLtmNodeUpdate w = (Return (Some e), w')
   | None => resourceBigipLtmNodeUpdate w = resourceBigipLtmNodeRead w'
   end).
Proof.
  intros Ht. cbn zeta. split; intros Hm.
  - rewrite (update_static w Ht Hm). split; [reflexivity | apply read_calls].
  - rewrite (update_fqdn w Ht Hm). cbn zeta.
    destruct (fst (ModifyNode _ _ _)); reflexivity.
Qed.

(** A static node: update is the read.  A domain name on a device that
    accepts the modify call: update is the read that follows the call. *)
Lemma update_modifies_fqdn_only_witness :
  calls (snd (resourceBigipLtmNodeUpdate
                (start (resource "node1" "10.0.0.5" [])
                   (device_with "node1" (static_node "10.0.0.5")))))
  = [CallGetNode "node1"] /\
  resourceBigipLtmNodeUpdate
    (start (resource "web" "web.example.com" [])
       (device_with "web" (fqdn_node "any6" "web.example.com")))
  = resourceBigipLtmNodeRead
      (after_call
         (start (resource "web" "web.example.com" [])
            (device_with "web" (fqdn_node "any6" "web.example.com")))
         (CallModifyNode "web" (MkNode "" 0 0 "" "" "user-up" ""))
         (device_with "web" (fqdn_node "any6" "web.example.com"))).
Proof.
  split.
  - exact (proj2 (proj1 (update_modifies_fqdn_only
             (start (resource "node1" "10.0.0.5" [])
                (device_with "node1" (static_node "10.0.0.5"))) eq_refl)
             eq_refl)).
  - exact (proj2 (update_modifies_fqdn_only
             (start (resource "web" "web.example.com" [])
                (device_with "web" (fqdn_node "any6" "web.example.com")))
             eq_refl) eq_refl).
Defined.

(** The run of update that C9 as it is written does not cover: a static
    address written with its route domain.  The device reports the very
    same address, update issues no modify call, and the concluding read
    stores the address without the route domain. *)
Lemma update_static_rewrites_address :
  let w := start (resource "node1" "10.0.0.5%2" [])
             (device_with "node1" (static_node "10.0.0.5%2")) in
  MatchString classify_regex (attr_string (data w) "address") = true /\
  address_of w = VString "10.0.0.5%2" /\
  calls (snd (resourceBigipLtmNodeUpdate w)) = [CallGetNode "node1"] /\
  address_of (snd (resourceBigipLtmNodeUpdate w)) = VString "10.0.0.5" /\
  address_of (snd (resourceBigipLtmNodeUpdate w)) <> address_of w.
Proof.
  cbn zeta. repeat split; try reflexivity. vm_compute. discriminate.
Qed.

(** C9, amended.  On typed resource data whose address is classified
    static, update issues no modify call: it is exactly a read, its only
    call is the fetch, and the device is left as the fetch left it.  The
    address in the resource data afterwards is the one read derives from
    the device: it is unchanged when the fetch fails or finds nothing, and
    when the device reports, without FQDN name, the dotted quad the
    resource data holds, alone or with a route domain. *)
Theorem update_static_keeps_address {R : Type} `{BigIP R} (w : World R) :
  typed (data w) = true ->
  MatchString classify_regex (attr_string (data w) "address") = true ->
  let id := rd_id (data w) in
  resourceBigipLtmNodeUpdate w = resourceBigipLtmNodeRead w /\
  calls (snd (resourceBigipLtmNodeUpdate w)) = (calls w ++ [CallGetNode id])%list /\
  (forall node e r',
      GetNode id (remote w) = ((node, Some e), r') ->
      remote (snd (resourceBigipLtmNodeUpdate w)) = r' /\
      address_of (snd (resourceBigipLtmNodeUpdate w)) = address_of w) /\
  (forall r',
      GetNode id (remote w) = ((None, None), r') ->
      remote (snd (resourceBigipLtmNodeUpdate w)) = r' /\
      address_of (snd (resourceBigipLtmNodeUpdate w)) = address_of w) /\
  (forall node r' a b c d sfx,
      GetNode id (remote w) = ((Some node, None), r') ->
      FQDN_Name node = "" ->
      octet a = true -> octet b = true -> octet c = true -> octet d = true ->
      route_domain_suffix sfx ->
      Address node = dotted_quad a b c d ++ sfx ->
      attr_string (data w) "address" = dotted_quad a b c d ->
      remote (snd (resourceBigipLtmNodeUpdate w)) = r' /\
      address_of (snd (resourceBigipLtmNodeUpdate w)) = address_of w).
Proof.
  intros Ht Hm. cbn zeta.
  rewrite (update_static w Ht Hm).
  split; [reflexivity|]. split; [apply read_calls|].
  split; [|split].
  - intros node e r' Hg. rewrite (read_fetch_error w node e r' Hg).
    split; reflexivity.
  - intros r' Hg. rewrite (read_not_found w r' Hg). split; reflexivity.
  - intros node r' a b c d sfx Hg He Ha Hb Hc Hd Hs Haddr Hlocal.
    rewrite (read_dotted_quad w node r' a b c d sfx Hg He Ha Hb Hc Hd Hs Haddr).
    cbn [snd]. split; [reflexivity|].
    rewrite refreshed_address. unfold address_of.
    destruct (typed_inv _ Ht) as (_ & Hav & _).
    rewrite Hav. now rewrite Hlocal.
Qed.

(** node1 at "10.0.0.5", reported by the device in route domain 2. *)
Lemma update_static_keeps_address_witness :
  address_of
    (snd (resourceBigipLtmNodeUpdate
            (start (resource "node1" "10.0.0.5" [])
               (device_with "node1" (static_node "10.0.0.5%2")))))
  = VString "10.0.0.5".
Proof.
  refine (proj2 (proj2 (proj2 (proj2 (proj2 (update_static_keeps_address
            (start (resource "node1" "10.0.0.5" [])
               (device_with "node1" (static_node "10.0.0.5%2")))
            eq_refl eq_refl))))
            (static_node "10.0.0.5%2") _ "10" "0" "0" "5" "%2"
            eq_refl eq_refl eq_refl eq_refl eq_refl eq_refl _ eq_refl eq_refl)).
  right. exists "2". repeat split. discriminate.
Defined.

(* ===================================================================== *)
(** * create (C2, C4, C5, C10) *)
(* ===================================================================== *)

Lemma fqdn_creates_not_static cs :
  Forall (fun c => is_fqdn_create c = true) cs ->
  List.filter is_static_create cs = [].
Proof.
  induction 1 as [|c cs Hc Hall IH]; [reflexivity|].
  cbn [List.filter]. destruct c; try discriminate. exact IH.
Qed.

Section CreateRouting.
Context {R : Type} `{BigIP R}.
Implicit Types w : World R.

(** The two create calls exclude each other: on a matched address the
    create calls of a run are the one static call, on an unmatched one
    every create call is an FQDN call. *)
Lemma create_routing w :
  typed (data w) = true ->
  exists cs,
    calls (snd (resourceBigipLtmNodeCreate w)) = (calls w ++ cs)%list /\
    if MatchString classify_regex (attr_string (data w) "address")
    then List.filter is_create cs = [static_create_call (data w)]
    else List.filter is_static_create cs = [].
Proof.
  intros Ht.
  destruct (MatchString classify_regex (attr_string (data w) "address")) eqn:Hm.
  - rewrite (create_static w Ht Hm). cbn zeta.
    destruct (fst (static_create (data w) (remote w))).
    + exists [static_create_call (data w)]. split; reflexivity.
    + exists [static_create_call (data w); CallGetNode (attr_string (data w) "name")].
      rewrite read_calls. cbn [with_id after_call calls data rd_id].
      rewrite <- app_assoc. split; reflexivity.
  - rewrite (create_fqdn w Ht Hm). cbn zeta.
    destruct (get_int_cases "fqdn.#" w) as [[n Hn] | [msg Hn]].
    + unfold bind at 1.
      erewrite (bind_Return (get_int "fqdn.#")) by exact Hn.
      match goal with
      | |- context [create_fqdn_loop ?a1 ?a2 ?a3 ?a4 ?a5 ?a6 ?a7 ?a8 ?k 0 None w] =>
          destruct (create_fqdn_loop_calls a1 a2 a3 a4 a5 a6 a7 a8 k 0 None w)
            as (cs & Hc & Hall & Hd);
          destruct (create_fqdn_loop a1 a2 a3 a4 a5 a6 a7 a8 k 0 None w)
            as [[[e|]|msg] w1] eqn:Hloop
      end; cbn [snd] in Hc, Hd.
      * exists cs. cbn [create_finish ret snd]. split; [exact Hc|].
        now apply fqdn_creates_not_static.
      * exists (cs ++ [CallGetNode (attr_string (data w) "name")])%list.
        cbn [create_finish]. unfold bind at 1. cbn [SetId].
        rewrite read_calls. cbn [calls data rd_id].
        rewrite Hc, <- app_assoc. split; [reflexivity|].
        rewrite List.filter_app. cbn [List.filter is_static_create].
        rewrite app_nil_r. now apply fqdn_creates_not_static.
      * exists cs. cbn [snd]. split; [exact Hc|].
        now apply fqdn_creates_not_static.
    + unfold bind at 1.
      erewrite (bind_Panic (get_int "fqdn.#")) by exact Hn.
      exists []. cbn [snd]. rewrite app_nil_r. split; reflexivity.
Qed.

(** When the one static create call fails, its error is what create
    returns, and nothing else happened. *)
Lemma create_static_error w e r' :
  typed (data w) = true ->
  MatchString classify_regex (attr_string (data w) "address") = true ->
  static_create (data w) (remote w) = (Some e, r') ->
  resourceBigipLtmNodeCreate w
  = (Return (Some e), after_call w (static_create_call (data w)) r').
Proof.
  intros Ht Hm Hc. rewrite (create_static w Ht Hm). cbn zeta.
  now rewrite Hc.
Qed.

End CreateRouting.

(** C10.  On typed resource data whose address is classified FQDN and
    whose [fqdn] list is empty, create calls neither create method: it
    passes its error check, sets the identifier to the name and runs read
    on the otherwise untouched world, so that its only call is the fetch
    of that read and its result the result of that read. *)
Theorem create_fqdn_without_blocks {R : Type} `{BigIP R} (w : World R) :
  typed (data w) = true ->
  MatchString classify_regex (attr_string (data w) "address") = false ->
  rd_get (data w) "fqdn.#" = VInt 0 ->
  resourceBigipLtmNodeCreate w
  = resourceBigipLtmNodeRead (with_id (attr_string (data w) "name") w) /\
  calls (snd (resourceBigipLtmNodeCreate w))
  = (calls w ++ [CallGetNode (attr_string (data w) "name")])%list.
Proof.
  intros Ht Hm Hn.
  assert (Hc : resourceBigipLtmNodeCreate w
               = resourceBigipLtmNodeRead (with_id (attr_string (data w) "name") w)).
  { rewrite (create_fqdn w Ht Hm). cbn zeta. unfold bind at 1.
    erewrite (bind_Return (get_int "fqdn.#")) by (apply get_int_ok; exact Hn).
    reflexivity. }
  split; [exact Hc|]. rewrite Hc. apply read_calls.
Qed.

(** A domain name without [fqdn] block on the empty device: create
    succeeds although nothing was created, and the read it ends with drops
    the identifier again. *)
Lemma create_fqdn_without_blocks_witness :
  calls (snd (resourceBigipLtmNodeCreate
                (start (planned "web" "web.example.com" []) empty_device)))
  = [CallGetNode "web"] /\
  fst (resourceBigipLtmNodeCreate
         (start (planned "web" "web.example.com" []) empty_device))
  = Return None.
Proof.
  split.
  - exact (proj2 (create_fqdn_without_blocks
             (start (planned "web" "web.example.com" []) empty_device)
             eq_refl eq_refl eq_refl)).
  - rewrite (proj1 (create_fqdn_without_blocks
               (start (planned "web" "web.example.com" []) empty_device)
               eq_refl eq_refl eq_refl)).
    reflexivity.
Defined.

(** C2.  The address "10-0-0-5.example.com" is a domain name: it holds no
    colon, it is no dotted quad, and the pattern of the specification does
    not match it.  The pattern of the source, whose dots are not escaped,
    matches it, and create issues the static create call for it. *)
Theorem create_routes_domain_name_to_static :
  let address := "10-0-0-5.example.com" in
  let w := start (planned "app" address []) empty_device in
  String.index 0 ":" address = None /\
  (forall a b c d, octet a = true -> dotted_quad a b c d <> address) /\
  MatchString spec_classify_regex address = false /\
  MatchString classify_regex address = true /\
  List.filter is_create (calls (snd (resourceBigipLtmNodeCreate w)))
  = [CallCreateNode "app" address "" 0 0 1 "" "user-up"].
Proof.
  cbn zeta. split; [reflexivity|]. split.
  - intros a b c d Ha Heq. unfold dotted_quad in Heq.
    unfold octet in Ha. apply andb_prop in Ha as [Ha Hhi].
    apply andb_prop in Ha as [Hall Hlo]. apply Nat.leb_le in Hlo, Hhi.
    destruct a as [|x [|y [|z [|? ?]]]]; cbn [String.length] in *; try lia;
      rewrite ?string_app_cons, ?string_app_nil in Heq;
      injection Heq as; subst; try discriminate.
  - split; [reflexivity|]. split; reflexivity.
Qed.

(** C3.  An IPv6 node: the classification pattern accepts its address as
    static, the extraction pattern of read does not match it, and read
    indexes the nil slice.  The read panics instead of returning an error;
    so does the create of such a node, whose static call went through. *)
Theorem read_unmatched_address_panics :
  let w := start (resource "v6" "2001:db8::1" [])
             (device_with "v6" (static_node "2001:db8::1")) in
  MatchString classify_regex "2001:db8::1" = true /\
  FindStringSubmatch extract_regex "2001:db8::1" = None /\
  resourceBigipLtmNodeRead w
  = (Panic "runtime error: index out of range",
     after_call w (CallGetNode "v6") (remote w)) /\
  address_of (snd (resourceBigipLtmNodeRead w)) = address_of w /\
  fst (resourceBigipLtmNodeCreate
         (start (planned "v6" "2001:db8::1" []) empty_device))
  = Panic "runtime error: index out of range".
Proof.
  cbn zeta. split; [reflexivity|]. split; [reflexivity|].
  split; [|split; reflexivity].
  apply read_unmatched with (node := static_node "2001:db8::1"); reflexivity.
Qed.

(** C4.  One [fqdn] block with [autopopulate = "enabled"]: the resource
    data holds the declared key [fqdn.0.autopopulate], the loop asks for
    [fqdn.0.auto_populate], which the schema does not declare, and the
    type assertion on the nil it gets panics before any call.  When the
    resource data answers that other key as well, the call carries its
    value and not the configured one. *)
Theorem create_fqdn_ignores_autopopulate :
  let d := planned "web" "web.example.com" [ {["autopopulate" := VString "enabled"]} ] in
  rd_get d "fqdn.0.autopopulate" = VString "enabled" /\
  lookup_schema "auto_populate" fqdn_schema = None /\
  rd_get d "fqdn.0.auto_populate" = VNil /\
  resourceBigipLtmNodeCreate (start d empty_device)
  = (Panic "interface conversion: interface {} is nil, not string",
     start d empty_device) /\
  List.filter is_create
    (calls (snd (resourceBigipLtmNodeCreate
                   (start (with_attr "fqdn.0.auto_populate" (VString "disabled") d)
                      empty_device))))
  = [CallCreateFQDNNode "web" "web.example.com" "" 0 0 1 "" "user-up"
       "3600" 5 "disabled"].
Proof.
  cbn zeta. repeat split; vm_compute; reflexivity.
Qed.

(** ** create never reads the declared [autopopulate] key *)

Lemma app_tail_inv (s1 : string) : forall s2 t1 t2,
  s1 ++ t1 = s2 ++ t2 -> String.length t1 = String.length t2 -> t1 = t2.
Proof.
  induction s1 as [|a s1 IH]; intros [|b s2] t1 t2 Heq Hlen;
    rewrite ?string_app_cons, ?string_app_nil in Heq.
  - exact Heq.
  - subst t1. cbn [String.length] in Hlen. rewrite string_app_length in Hlen. lia.
  - subst t2. cbn [String.length] in Hlen. rewrite string_app_length in Hlen. lia.
  - injection Heq as _ Heq. now apply (IH s2).
Qed.

(** The three keys the loop reads differ from every [autopopulate] key. *)
Lemma loop_keys_not_autopopulate i j :
  ("fqdn." ++ itoa j) ++ ".interval" <> "fqdn." ++ itoa i ++ ".autopopulate" /\
  ("fqdn." ++ itoa j) ++ ".down_interval" <> "fqdn." ++ itoa i ++ ".autopopulate" /\
  ("fqdn." ++ itoa j) ++ ".auto_populate" <> "fqdn." ++ itoa i ++ ".autopopulate".
Proof.
  repeat split; intros Heq.
  - change (".autopopulate") with (".aut" ++ "opopulate") in Heq.
    rewrite <- !string_app_assoc in Heq.
    apply app_tail_inv in Heq; [discriminate | reflexivity].
  - change (".down_interval") with ("." ++ "down_interval") in Heq.
    rewrite <- !string_app_assoc in Heq.
    apply app_tail_inv in Heq; [discriminate | reflexivity].
  - change (".auto_populate") with ("." ++ "auto_populate") in Heq.
    rewrite <- !string_app_assoc in Heq.
    apply app_tail_inv in Heq; [discriminate | reflexivity].
Qed.

Lemma count_key_not_autopopulate i :
  "fqdn.#" <> "fqdn." ++ itoa i ++ ".autopopulate".
Proof.
  intros Heq. apply (f_equal String.length) in Heq.
  rewrite !string_app_length in Heq. cbn [String.length] in Heq. lia.
Qed.

Section Blind.
Context {R : Type} `{BigIP R}.
Variable key : string.

Lemma agree_refl (w : World R) : agree key w w.
Proof. unfold agree. auto. Qed.

Lemma blind_ret {A} (a : A) : blind key (ret (R := R) a).
Proof. intros w1 w2 Hw. split; [reflexivity | exact Hw]. Qed.

Lemma blind_panic {A} msg : blind key (panic (R := R) (A := A) msg).
Proof. intros w1 w2 Hw. split; [reflexivity | exact Hw]. Qed.

Lemma blind_bind {A B} (m : Go R A) (f : A -> Go R B) :
  blind key m -> (forall a, blind key (f a)) -> blind key (bind m f).
Proof.
  intros Hm Hf w1 w2 Hw. destruct (Hm w1 w2 Hw) as [Ho Hw'].
  unfold bind.
  destruct (m w1) as [[a1|msg1] w1'], (m w2) as [[a2|msg2] w2'];
    cbn [fst snd] in *; try discriminate.
  - injection Ho as ->. now apply Hf.
  - injection Ho as ->. split; [reflexivity | assumption].
Qed.

Lemma blind_Id : blind key (Id (R := R)).
Proof.
  intros w1 w2 Hw. cbn [Id fst snd]. split; [|exact Hw].
  destruct Hw as (Hid & _). now rewrite Hid.
Qed.

Lemma blind_SetId id : blind key (SetId (R := R) id).
Proof.
  intros w1 w2 (Hid & Hr & Hc & Hk). cbn [SetId fst snd].
  split; [reflexivity|]. repeat split; assumption.
Qed.

Lemma blind_Get k : k <> key -> blind key (Get (R := R) k).
Proof.
  intros Hne w1 w2 Hw. cbn [Get fst snd]. split; [|exact Hw].
  destruct Hw as (_ & _ & _ & Hk). now rewrite (Hk k Hne).
Qed.

Lemma blind_get_string k : k <> key -> blind key (get_string (R := R) k).
Proof.
  intros Hne. apply blind_bind; [now apply blind_Get|].
  intros [| |]; cbn [as_string]; first [apply blind_ret | apply blind_panic].
Qed.

Lemma blind_get_int k : k <> key -> blind key (get_int (R := R) k).
Proof.
  intros Hne. apply blind_bind; [now apply blind_Get|].
  intros [| |]; cbn [as_int]; first [apply blind_ret | apply blind_panic].
Qed.

Lemma blind_Set k v : blind key (Set_ (R := R) k v).
Proof.
  intros w1 w2 (Hid & Hr & Hc & Hk). unfold Set_.
  destruct (lookup_schema k node_schema) as [s|];
    [destruct (has_type (Type_ s) v)|];
    cbn [fst snd]; (split; [reflexivity|]); repeat split; try assumption.
  cbn [data rd_attrs]. intros k' Hne. unfold rd_get. cbn [rd_attrs].
  destruct (decide (k = k')) as [->|Hkk].
  - now rewrite !lookup_insert_eq.
  - rewrite !lookup_insert_ne by assumption. exact (Hk k' Hne).
Qed.

Lemma blind_logged {A} c (f : R -> A * R) : blind key (logged c f).
Proof.
  intros w1 w2 (Hid & Hr & Hc & Hk). unfold logged. rewrite Hr, Hc.
  destruct (f (remote w2)) as [a r']. cbn [fst snd].
  split; [reflexivity|]. repeat split; assumption.
Qed.

Lemma blind_index xs i : blind key (index (R := R) xs i).
Proof.
  unfold index. destruct xs as [l|]; [destruct (nth_error l i)|];
    first [apply blind_ret | apply blind_panic].
Qed.

Lemma blind_read : blind key (resourceBigipLtmNodeRead (R := R)).
Proof.
  unfold resourceBigipLtmNodeRead.
  apply blind_bind; [apply blind_Id | intros name].
  apply blind_bind; [apply blind_logged | intros [node [e|]]].
  { apply blind_ret. }
  destruct node as [node|].
  2: { apply blind_bind; [apply blind_SetId | intros _; apply blind_ret]. }
  apply blind_bind.
  { destruct (negb _); [apply blind_Set|].
    cbn zeta. apply blind_bind; [apply blind_index | intros a1; apply blind_Set]. }
  intros [e|].
  { apply blind_bind; [apply blind_Id | intros id; apply blind_ret]. }
  apply blind_bind; [apply blind_Set | intros _].
  apply blind_bind; [apply blind_Set | intros [e|]].
  { apply blind_bind; [apply blind_Id | intros id; apply blind_ret]. }
  apply blind_bind; [apply blind_Set | intros [e|]].
  { apply blind_bind; [apply blind_Id | intros id; apply blind_ret]. }
  apply blind_bind; [apply blind_Set | intros _].
  apply blind_bind; [apply blind_Set | intros _].
  apply blind_ret.
Qed.

End Blind.

Section BlindCreate.
Context {R : Type} `{BigIP R}.
Variable i : nat.

Let key : string := "fqdn." ++ itoa i ++ ".autopopulate".

Lemma blind_create_fqdn_loop name address rate_limit connection_limit
    dynamic_ratio ratio monitor state n : forall j err,
  blind key (create_fqdn_loop (R := R) name address rate_limit connection_limit
               dynamic_ratio ratio monitor state n j err).
Proof.
  induction n as [|n IH]; intros j err; cbn [create_fqdn_loop].
  - apply blind_ret.
  - destruct (loop_keys_not_autopopulate i j) as (Hk1 & Hk2 & Hk3).
    cbn zeta.
    apply blind_bind; [now apply blind_get_string | intros interval].
    apply blind_bind; [now apply blind_get_int | intros down_interval].
    apply blind_bind; [now apply blind_get_string | intros auto_populate].
    apply blind_bind; [apply blind_logged | intros err'].
    apply IH.
Qed.

Lemma top_key_not_autopopulate k :
  In k ["name"; "address"; "rate_limit"; "connection_limit"; "dynamic_ratio";
        "ratio"; "monitor"; "state"] ->
  k <> key.
Proof.
  unfold key. cbn [In].
  intros [<- | [<- | [<- | [<- | [<- | [<- | [<- | [<- | []]]]]]]]];
    rewrite string_app_cons; discriminate.
Qed.

Lemma blind_create : blind key (resourceBigipLtmNodeCreate (R := R)).
Proof.
  unfold resourceBigipLtmNodeCreate.
  apply blind_bind;
    [apply blind_get_string, top_key_not_autopopulate; cbn; tauto | intros name].
  apply blind_bind;
    [apply blind_get_string, top_key_not_autopopulate; cbn; tauto | intros address].
  apply blind_bind;
    [apply blind_get_string, top_key_not_autopopulate; cbn; tauto | intros rate_limit].
  apply blind_bind;
    [apply blind_get_int, top_key_not_autopopulate; cbn; tauto | intros connection_limit].
  apply blind_bind;
    [apply blind_get_int, top_key_not_autopopulate; cbn; tauto | intros dynamic_ratio].
  apply blind_bind;
    [apply blind_get_int, top_key_not_autopopulate; cbn; tauto | intros ratio].
  apply blind_bind;
    [apply blind_get_string, top_key_not_autopopulate; cbn; tauto | intros monitor].
  apply blind_bind;
    [apply blind_get_string, top_key_not_autopopulate; cbn; tauto | intros state].
  cbn zeta. apply blind_bind.
  - destruct (MatchString classify_regex address).
    + apply blind_logged.
    + apply blind_bind;
        [apply blind_get_int, count_key_not_autopopulate | intros ifaceCount].
      apply blind_create_fqdn_loop.
  - intros [e|]; [apply blind_ret|].
    apply blind_bind; [apply blind_SetId | intros _; apply blind_read].
Qed.

(** Whatever the resource data holds under [fqdn.<i>.autopopulate], create
    returns the same and issues the same calls with the same arguments. *)
Lemma create_never_reads_autopopulate (v : value) (w : World R) :
  let w' := MkWorld (with_attr key v (data w)) (remote w) (calls w) in
  fst (resourceBigipLtmNodeCreate w') = fst (resourceBigipLtmNodeCreate w) /\
  calls (snd (resourceBigipLtmNodeCreate w')) = calls (snd (resourceBigipLtmNodeCreate w)) /\
  remote (snd (resourceBigipLtmNodeCreate w')) = remote (snd (resourceBigipLtmNodeCreate w)).
Proof.
  cbn zeta.
  destruct (blind_create (MkWorld (with_attr key v (data w)) (remote w) (calls w)) w)
    as (Ho & _ & Hr & Hc & _).
  - repeat split. intros k Hk. unfold rd_get, with_attr. cbn [data rd_attrs].
    now rewrite lookup_insert_ne by congruence.
  - auto.
Qed.

End BlindCreate.

(* ===================================================================== *)
(** * Further properties of the handlers *)
(* ===================================================================== *)

(** ** Texts a pattern cannot match *)

Lemma no_byte_skip c n : forall s, no_byte c s = true -> no_byte c (skip n s) = true.
Proof.
  induction n as [|n IH]; intros [|b s] Hs; cbn [skip]; auto.
  cbn [no_byte] in Hs. apply andb_prop in Hs as [_ Hs]. auto.
Qed.

Lemma no_byte_decode c s x w t :
  DecodeRuneInString s = Some (x, w, t) ->
  no_byte c s = true ->
  no_byte c t = true /\ 1 <= w /\
  match x with RAscii b => Ascii.eqb b c = false | RWide => True end.
Proof.
  destruct s as [|b s]; [discriminate|]. cbn [DecodeRuneInString no_byte].
  intros Hd Hs. apply andb_prop in Hs as [Hb Hs].
  destruct (byte_val b <? 128)%N; injection Hd as <- <- <-.
  - repeat split; [assumption | lia | now apply negb_true_iff].
  - pose proof (utf8_size_bounds b s). repeat split; [|lia].
    now apply no_byte_skip.
Qed.

Section Dead.
Variable c : ascii.

Lemma passes_one_rune p : passes c (one_rune p).
Proof.
  intros k Hk th Hth. unfold one_rune.
  destruct (DecodeRuneInString (rest th)) as [[[x w] t]|] eqn:Hd; [|reflexivity].
  destruct (p x); [|reflexivity].
  apply Hk. cbn [rest]. now destruct (no_byte_decode c _ _ _ _ Hd Hth).
Qed.

Lemma passes_star_loop body n : passes c body -> passes c (star_loop body n).
Proof.
  intros Hb. induction n as [|n IH]; intros k Hk th Hth; cbn [star_loop].
  - now apply Hk.
  - rewrite (Hk th Hth).
    rewrite (Hb (fun th' => if Nat.ltb (pos th) (pos th')
                            then star_loop body n th' k else None)); [reflexivity| |assumption].
    intros th' Hth'. destruct (Nat.ltb _ _); [|reflexivity]. now apply IH.
Qed.

Lemma passes_opt_loop body n : passes c body -> passes c (opt_loop body n).
Proof.
  intros Hb. induction n as [|n IH]; intros k Hk th Hth; cbn [opt_loop].
  - now apply Hk.
  - rewrite (Hk th Hth).
    rewrite (Hb (fun th' => opt_loop body n th' k)); [reflexivity| |assumption].
    intros th' Hth'. now apply IH.
Qed.

Lemma passes_req_loop body n after :
  passes c body -> passes c after -> passes c (req_loop body n after).
Proof.
  intros Hb Ha. induction n as [|n IH]; intros k Hk th Hth; cbn [req_loop].
  - now apply Ha.
  - apply (Hb (fun th' => req_loop body n after th' k)); [|assumption].
    intros th' Hth'. now apply IH.
Qed.

(** The matcher only ever moves forward in the text. *)
Lemma passes_run r : passes c (run r).
Proof.
  induction r as [ch|ch| | | | | |i r IH|r IH|r IH|r IH|r IH|r IH lo hi
                 |r1 IH1 r2 IH2|r1 IH1 r2 IH2];
    intros k Hk th Hth; cbn [run];
    try (now apply (passes_one_rune _ k Hk)).
  - destruct (Nat.eqb (pos th) 0); [now apply Hk | reflexivity].
  - destruct (rest th) eqn:Hr; [|reflexivity]. apply Hk. now rewrite Hr.
  - apply (IH (fun th' => k (Thread (pos th') (rest th')
                               (<[i := (pos th, pos th')]> (cap th'))))); [|assumption].
    intros th' Hth'. now apply Hk.
  - now apply IH.
  - now apply (passes_star_loop (run r) _ IH k Hk).
  - apply (IH (fun th' => star_loop (run r) (String.length (rest th')) th' k));
      [|assumption].
    intros th' Hth'. now apply (passes_star_loop (run r) _ IH k Hk).
  - now apply (passes_opt_loop (run r) 1 IH k Hk).
  - apply (passes_req_loop (run r) lo (opt_loop (run r) (hi - lo)) IH); try assumption.
    now apply passes_opt_loop.
  - apply (IH1 (fun th' => run r2 th' k)); [|assumption].
    intros th' Hth'. now apply IH2.
  - rewrite (IH1 k Hk th Hth). now apply IH2.
Qed.

(** A pattern that needs [c] fails on a text without [c], whatever
    follows the pattern. *)
Lemma needs_run r : needs c r = true ->
  forall k th, no_byte c (rest th) = true -> run r th k = None.
Proof.
  induction r as [ch|ch| | | | | |i r IH|r IH|r IH|r IH|r IH|r IH lo hi
                 |r1 IH1 r2 IH2|r1 IH1 r2 IH2];
    cbn [needs]; intros Hn k th Hth; try discriminate.
  - cbn [run]. unfold one_rune.
    destruct (DecodeRuneInString (rest th)) as [[[x w] t]|] eqn:Hd; [|reflexivity].
    destruct (no_byte_decode c _ _ _ _ Hd Hth) as (_ & _ & Hx).
    destruct x as [b|]; cbn [rune_is]; [|reflexivity].
    apply Ascii.eqb_eq in Hn. subst ch. now rewrite Hx.
  - cbn [run]. unfold one_rune.
    destruct (DecodeRuneInString (rest th)) as [[[x w] t]|] eqn:Hd; [|reflexivity].
    destruct (no_byte_decode c _ _ _ _ Hd Hth) as (_ & _ & Hx).
    destruct x as [b|]; cbn [rune_is]; [|reflexivity].
    apply Ascii.eqb_eq in Hn. subst ch. now rewrite Hx.
  - cbn [run]. now apply IH.
  - cbn [run]. now apply IH.
  - cbn [run]. now apply IH.
  - apply andb_prop in Hn as [Hlo Hn]. apply Nat.leb_le in Hlo.
    destruct lo as [|lo]; [lia|]. cbn [run req_loop]. now apply IH.
  - cbn [run]. apply orb_prop in Hn as [Hn | Hn].
    + now apply IH1.
    + apply (passes_run r1 (fun th' => run r2 th' k)); [|assumption].
      intros th' Hth'. now apply IH2.
  - apply andb_prop in Hn as [Hn1 Hn2]. cbn [run].
    rewrite (IH1 Hn1 k th Hth). now apply IH2.
Qed.

Lemma needs_search r : needs c r = true ->
  forall n p s, no_byte c s = true -> search r n p s = None.
Proof.
  intros Hn. induction n as [|n IH]; intros p s Hs; cbn [search]; unfold match_at;
    rewrite (needs_run r Hn) by assumption; [reflexivity|].
  destruct (DecodeRuneInString s) as [[[x w] t]|] eqn:Hd; [|reflexivity].
  apply IH. now destruct (no_byte_decode c _ _ _ _ Hd Hs).
Qed.

End Dead.

Lemma extract_needs_dot : needs "." extract_regex = true.
Proof. reflexivity. Qed.

(** The extraction pattern finds nothing in a text without a dot. *)
Lemma extract_without_dot s :
  no_byte "." s = true -> FindStringSubmatch extract_regex s = None.
Proof.
  intros Hs. unfold FindStringSubmatch, find.
  now rewrite (needs_search "." extract_regex extract_needs_dot).
Qed.

Lemma one_rune_digit_fail p t c k :
  leading_digit t = false -> one_rune rune_digit (Thread p t c) k = None.
Proof.
  intros Hd. unfold one_rune. cbn [rest].
  destruct t as [|b t]; [reflexivity|].
  cbn [DecodeRuneInString leading_digit] in *.
  destruct (byte_val b <? 128)%N; cbn [rune_digit]; [now rewrite Hd | reflexivity].
Qed.

Lemma classify_fails_at p t :
  no_byte ":" t = true ->
  (p = 0 -> leading_digit t = false) ->
  match_at classify_regex p t = None.
Proof.
  intros Ht Hp. unfold match_at, classify_regex.
  match goal with
  | |- run (Alternate ?a ?b) ?th ?k = None =>
      change (orelse (run a th k) (run b th k) = None);
      rewrite (needs_run ":" b eq_refl k th Ht)
  end.
  cbn [run pos req_loop]. destruct (Nat.eqb p 0) eqn:Hp0; [|reflexivity].
  apply Nat.eqb_eq in Hp0. now rewrite one_rune_digit_fail by auto.
Qed.

(** The classification pattern does not match a text without a colon that
    does not start with a digit. *)
Lemma classify_plain_name s :
  no_byte ":" s = true -> leading_digit s = false ->
  MatchString classify_regex s = false.
Proof.
  intros Hs Hd. unfold MatchString, find.
  assert (Hsearch : forall n p t, no_byte ":" t = true ->
            (p = 0 -> leading_digit t = false) ->
            search classify_regex n p t = None).
  { induction n as [|n IH]; intros p t Ht Hp; cbn [search];
      rewrite (classify_fails_at p t Ht Hp); [reflexivity|].
    destruct (DecodeRuneInString t) as [[[x w] t']|] eqn:Hdec; [|reflexivity].
    destruct (no_byte_decode ":" _ _ _ _ Hdec Ht) as (Ht' & Hw & _).
    apply IH; [assumption | lia]. }
  now rewrite Hsearch.
Qed.

(** ** read, case by case *)

Section ReadCases.
Context {R : Type} `{BigIP R}.
Implicit Types w : World R.

(** The four ways a read ends. *)
Lemma read_cases w :
  let id := rd_id (data w) in
  let w1 := after_call w (CallGetNode id) (snd (GetNode id (remote w))) in
  (exists e, resourceBigipLtmNodeRead w = (Return (Some e), w1)) \/
  (fst (GetNode id (remote w)) = (None, None) /\
   resourceBigipLtmNodeRead w = (Return None, with_id "" w1)) \/
  (exists node address,
     fst (GetNode id (remote w)) = (Some node, None) /\
     derived_address node address /\
     resourceBigipLtmNodeRead w = (Return None, refreshed address node w1)) \/
  resourceBigipLtmNodeRead w = (Panic "runtime error: index out of range", w1).
Proof.
  cbn zeta.
  destruct (GetNode (rd_id (data w)) (remote w)) as [[node [e|]] r'] eqn:Hg;
    cbn [fst snd].
  - left. exists e. now apply read_fetch_error with (node := node).
  - destruct node as [node|].
    + destruct (String.eqb (FQDN_Name node) "") eqn:Hq.
      * apply String.eqb_eq in Hq.
        destruct (FindStringSubmatch extract_regex (Address node))
          as [[|whole [|a l]]|] eqn:Hf.
        -- right. right. right.
           unfold resourceBigipLtmNodeRead. unfold bind at 1. cbn [Id].
           erewrite bind_Return by apply client_GetNode_eq.
           rewrite Hg. cbn [fst snd]. rewrite Hq. cbn [String.eqb negb].
           rewrite Hf. reflexivity.
        -- right. right. right.
           unfold resourceBigipLtmNodeRead. unfold bind at 1. cbn [Id].
           erewrite bind_Return by apply client_GetNode_eq.
           rewrite Hg. cbn [fst snd]. rewrite Hq. cbn [String.eqb negb].
           rewrite Hf. reflexivity.
        -- right. right. left. exists node, a. split; [reflexivity|].
           assert (Ha : derived_address node a) by (right; eauto).
           split; [exact Ha|]. now apply read_found.
        -- right. right. right. now apply read_unmatched with (node := node).
      * apply String.eqb_neq in Hq.
        right. right. left. exists node, (FQDN_Name node). split; [reflexivity|].
        assert (Ha : derived_address node (FQDN_Name node)) by (now left).
        split; [exact Ha|]. now apply read_found.
    + right. left. split; [reflexivity|]. now apply read_not_found.
Qed.

End ReadCases.

Lemma refreshed_other {R} address node (w : World R) k :
  ~ In k read_keys ->
  rd_get (data (refreshed address node w)) k = rd_get (data w) k.
Proof.
  intros Hk. unfold refreshed, refresh, rd_get. cbn [data rd_attrs].
  unfold read_keys in Hk. cbn [In] in Hk.
  rewrite !lookup_insert_ne by (intros <-; tauto). reflexivity.
Qed.

Lemma refreshed_stored {R} address node (w : World R) :
  let d := data (refreshed address node w) in
  rd_get d "address" = VString address /\
  rd_get d "name" = VString (rd_id (data w)) /\
  rd_get d "monitor" = VString (Monitor node) /\
  rd_get d "rate_limit" = VString (RateLimit node) /\
  rd_get d "connection_limit" = VInt (ConnectionLimit node) /\
  rd_get d "dynamic_ratio" = VInt (DynamicRatio node).
Proof.
  cbn zeta. unfold refreshed, refresh, rd_get. cbn [data rd_attrs].
  repeat split;
    repeat first [ rewrite lookup_insert_eq; reflexivity
                 | rewrite lookup_insert_ne by discriminate ].
Qed.

(** X1.  Every run of read, the panicking ones included, issues exactly
    one call, the fetch of the identifier, and leaves the device as that
    fetch left it. *)
Theorem read_fetches_once {R : Type} `{BigIP R} (w : World R) :
  calls (snd (resourceBigipLtmNodeRead w))
  = (calls w ++ [CallGetNode (rd_id (data w))])%list /\
  remote (snd (resourceBigipLtmNodeRead w))
  = snd (GetNode (rd_id (data w)) (remote w)).
Proof.
  destruct (read_cases w) as [[e Hr] | [[_ Hr] | [(node & a & _ & _ & Hr) | Hr]]];
    rewrite Hr; split; reflexivity.
Qed.

(** X2.  A read that does not return nil (a fetch error or a panic) leaves
    the resource data exactly as it was: nothing is written before the
    point of failure.  A read that finds no node changes the identifier
    only. *)
Theorem read_failure_writes_nothing {R : Type} `{BigIP R} (w : World R) :
  (fst (resourceBigipLtmNodeRead w) <> Return None ->
   data (snd (resourceBigipLtmNodeRead w)) = data w) /\
  (fst (GetNode (rd_id (data w)) (remote w)) = (None, None) ->
   rd_attrs (data (snd (resourceBigipLtmNodeRead w))) = rd_attrs (data w)).
Proof.
  destruct (read_cases w) as [[e Hr] | [[Hg Hr] | [(node & a & Hg & _ & Hr) | Hr]]];
    rewrite Hr; cbn [fst snd]; split; intros Hx;
    try reflexivity; congruence.
Qed.

(** A fetch that times out, on resource data with its defaults. *)
Lemma read_failure_writes_nothing_witness :
  data (snd (resourceBigipLtmNodeRead
               (start (resource "node1" "10.0.0.5" [])
                  (MkDevice ∅ [] (Some (Error "timeout"))))))
  = resource "node1" "10.0.0.5" [].
Proof.
  refine (proj1 (read_failure_writes_nothing
                   (start (resource "node1" "10.0.0.5" [])
                      (MkDevice ∅ [] (Some (Error "timeout"))))) _).
  discriminate.
Defined.

(** X3.  A read that finds the node and returns nil keeps the identifier,
    stores the identifier as the name, stores the node's monitor, rate
    limit, connection limit and dynamic ratio as they are, and leaves every
    attribute other than these five and the address untouched: ratio, state
    and the fqdn blocks are never refreshed. *)
Theorem read_refreshes_five_attributes {R : Type} `{BigIP R} (w : World R) node :
  fst (GetNode (rd_id (data w)) (remote w)) = (Some node, None) ->
  fst (resourceBigipLtmNodeRead w) = Return None ->
  let d' := data (snd (resourceBigipLtmNodeRead w)) in
  rd_id d' = rd_id (data w) /\
  rd_get d' "name" = VString (rd_id (data w)) /\
  rd_get d' "monitor" = VString (Monitor node) /\
  rd_get d' "rate_limit" = VString (RateLimit node) /\
  rd_get d' "connection_limit" = VInt (ConnectionLimit node) /\
  rd_get d' "dynamic_ratio" = VInt (DynamicRatio node) /\
  (forall k, ~ In k read_keys -> rd_get d' k = rd_get (data w) k).
Proof.
  intros Hg Hok. cbn zeta.
  destruct (read_cases w) as [[e Hr] | [[Hg' Hr] | [(node' & a & Hg' & _ & Hr) | Hr]]];
    rewrite Hr in *; cbn [fst snd] in *; try congruence.
  assert (node' = node) as -> by congruence.
  destruct (refreshed_stored a node
              (after_call w (CallGetNode (rd_id (data w)))
                 (snd (GetNode (rd_id (data w)) (remote w)))))
    as (_ & Hn & Hm & Hrl & Hcl & Hdr).
  split; [reflexivity|]. split; [exact Hn|]. split; [exact Hm|].
  split; [exact Hrl|]. split; [exact Hcl|]. split; [exact Hdr|].
  intros k Hk. now rewrite refreshed_other.
Qed.

(** A node whose limits changed on the device while the resource data
    holds ratio 1 and state user-up. *)
Lemma read_refreshes_five_attributes_witness :
  let w := start (resource "node1" "10.0.0.5" [])
             (device_with "node1"
                (MkNode "10.0.0.5" 100 7 "/Common/icmp" "50" "user-down" "")) in
  rd_get (data (snd (resourceBigipLtmNodeRead w))) "connection_limit" = VInt 100 /\
  rd_get (data (snd (resourceBigipLtmNodeRead w))) "state" = VString "user-up".
Proof.
  cbn zeta.
  pose proof (read_refreshes_five_attributes
                (start (resource "node1" "10.0.0.5" [])
                   (device_with "node1"
                      (MkNode "10.0.0.5" 100 7 "/Common/icmp" "50" "user-down" "")))
                _ eq_refl eq_refl) as (_ & _ & _ & _ & Hcl & _ & Hother).
  split; [exact Hcl|].
  rewrite (Hother "state"); [reflexivity|].
  unfold read_keys. cbn [In]. intros [|[|[|[|[|[|[]]]]]]]; discriminate.
Defined.

(** X4.  For every node the device reports without FQDN name and with an
    address that holds no dot (every IPv6 address in colon notation), read
    panics on the index right after the fetch; the resource data is left as
    it was. *)
Theorem read_panics_without_dot {R : Type} `{BigIP R} (w : World R) node r' :
  GetNode (rd_id (data w)) (remote w) = ((Some node, None), r') ->
  FQDN_Name node = "" ->
  no_byte "." (Address node) = true ->
  resourceBigipLtmNodeRead w
  = (Panic "runtime error: index out of range",
     after_call w (CallGetNode (rd_id (data w))) r').
Proof.
  intros Hg He Hd. apply read_unmatched with (node := node); try assumption.
  now apply extract_without_dot.
Qed.

Lemma read_panics_without_dot_witness :
  resourceBigipLtmNodeRead
    (start (resource "v6" "fe80::1" [])
       (device_with "v6" (static_node "fe80::1%1")))
  = (Panic "runtime error: index out of range",
     after_call (start (resource "v6" "fe80::1" [])
                   (device_with "v6" (static_node "fe80::1%1")))
       (CallGetNode "v6") (device_with "v6" (static_node "fe80::1%1"))).
Proof.
  exact (read_panics_without_dot
           (start (resource "v6" "fe80::1" [])
              (device_with "v6" (static_node "fe80::1%1")))
           (static_node "fe80::1%1") _ eq_refl eq_refl eq_refl).
Defined.

Lemma refresh_twice address node (d : ResourceData) :
  refresh address (rd_id d) node (refresh address (rd_id d) node d)
  = refresh address (rd_id d) node d.
Proof.
  unfold refresh. cbn [rd_id rd_attrs]. f_equal.
  apply map_eq. intros k. rewrite !lookup_insert.
  repeat case_decide; reflexivity.
Qed.

(** X5.  read is idempotent on a device whose answer does not change: when
    a read found the node and returned nil, a second read on the world it
    left, answered with the same node, returns nil again and leaves the
    resource data as the first read left it. *)
Theorem read_twice {R : Type} `{BigIP R} (w : World R) node :
  fst (GetNode (rd_id (data w)) (remote w)) = (Some node, None) ->
  fst (resourceBigipLtmNodeRead w) = Return None ->
  fst (GetNode (rd_id (data w)) (remote (snd (resourceBigipLtmNodeRead w))))
  = (Some node, None) ->
  fst (resourceBigipLtmNodeRead (snd (resourceBigipLtmNodeRead w))) = Return None /\
  data (snd (resourceBigipLtmNodeRead (snd (resourceBigipLtmNodeRead w))))
  = data (snd (resourceBigipLtmNodeRead w)).
Proof.
  intros Hg Hok Hg2.
  destruct (read_cases w) as [[e Hr] | [[Hg' Hr] | [(node' & a & Hg' & Ha & Hr) | Hr]]];
    rewrite Hr in *; cbn [fst snd] in *; try congruence.
  assert (node' = node) as -> by congruence. clear Hg' Hok.
  set (w1 := refreshed a node
               (after_call w (CallGetNode (rd_id (data w)))
                  (snd (GetNode (rd_id (data w)) (remote w))))) in *.
  destruct (GetNode (rd_id (data w1)) (remote w1)) as [[n2 e2] r2] eqn:Hg3.
  change (rd_id (data w1)) with (rd_id (data w)) in Hg3.
  rewrite Hg3 in Hg2. cbn [fst] in Hg2. injection Hg2 as -> ->.
  rewrite (read_found w1 node r2 a Hg3 Ha). cbn [fst snd]. split; [reflexivity|].
  apply (refresh_twice a node (data w)).
Qed.

(** Two reads in a row of a node in route domain 2. *)
Lemma read_twice_witness :
  let w := start (resource "node1" "10.0.0.5" [])
             (device_with "node1" (static_node "10.0.0.5%2")) in
  data (snd (resourceBigipLtmNodeRead (snd (resourceBigipLtmNodeRead w))))
  = data (snd (resourceBigipLtmNodeRead w)).
Proof.
  exact (proj2 (read_twice
                  (start (resource "node1" "10.0.0.5" [])
                     (device_with "node1" (static_node "10.0.0.5%2")))
                  (static_node "10.0.0.5%2") eq_refl eq_refl eq_refl)).
Defined.

(** ** delete *)

(** X6.  delete issues exactly one call, the delete of the identifier, and
    never touches an attribute.  When the call fails, its error is returned
    as it is and the identifier stays, so the resource remains tracked;
    when it succeeds, nil is returned and the identifier is cleared. *)
Theorem delete_outcomes {R : Type} `{BigIP R} (w : World R) :
  let id := rd_id (data w) in
  let w' := snd (resourceBigipLtmNodeDelete w) in
  calls w' = (calls w ++ [CallDeleteNode id])%list /\
  remote w' = snd (DeleteNode id (remote w)) /\
  rd_attrs (data w') = rd_attrs (data w) /\
  fst (resourceBigipLtmNodeDelete w) = Return (fst (DeleteNode id (remote w))) /\
  rd_id (data w')
  = match fst (DeleteNode id (remote w)) with Some _ => id | None => "" end.
Proof.
  cbn zeta.
  assert (Hd : resourceBigipLtmNodeDelete w
               = let w1 := after_call w (CallDeleteNode (rd_id (data w)))
                             (snd (DeleteNode (rd_id (data w)) (remote w))) in
                 match fst (DeleteNode (rd_id (data w)) (remote w)) with
                 | Some e => (Return (Some e), w1)
                 | None => (Return None, with_id "" w1)
                 end).
  { unfold resourceBigipLtmNodeDelete.
    unfold bind at 1. cbn [Id]. unfold client_DeleteNode.
    erewrite bind_Return by apply logged_eq.
    destruct (fst (DeleteNode (rd_id (data w)) (remote w))); reflexivity. }
  rewrite Hd. cbn zeta.
  destruct (fst (DeleteNode (rd_id (data w)) (remote w)));
    (split; [|split; [|split; [|split]]]); reflexivity.
Qed.

(** ** create on the addresses the pattern is written for *)

(** X7.  On typed resource data whose address is an IPv4 dotted quad, or
    holds a colon with no newline after it, create issues the static create
    call first, carrying the eight attributes as the resource data holds
    them.  When that call fails, create returns its error as it is, having
    issued nothing else and written nothing; when it succeeds, create sets
    the identifier to the name and its result is that of the read. *)
Theorem create_static_address {R : Type} `{BigIP R} (w : World R) :
  typed (data w) = true ->
  ((exists a b c d,
       octet a = true /\ octet b = true /\ octet c = true /\ octet d = true /\
       attr_string (data w) "address" = dotted_quad a b c d) \/
   (exists pre u,
       no_newline u = true /\
       attr_string (data w) "address" = pre ++ ":" ++ u)) ->
  let d := data w in
  let w1 := after_call w (static_create_call d) (snd (static_create d (remote w))) in
  match fst (static_create d (remote w)) with
  | Some e => resourceBigipLtmNodeCreate w = (Return (Some e), w1)
  | None =>
      resourceBigipLtmNodeCreate w
      = resourceBigipLtmNodeRead (with_id (attr_string d "name") w1)
  end.
Proof.
  intros Ht Haddr. cbn zeta.
  assert (Hm : MatchString classify_regex (attr_string (data w) "address") = true).
  { destruct Haddr as [(a & b & c & d & Ha & Hb & Hc & Hd & ->)
                      | (pre & u & Hu & ->)].
    - now apply classify_dotted_quad.
    - now apply classify_colon. }
  rewrite (create_static w Ht Hm). cbn zeta.
  destruct (fst (static_create (data w) (remote w))); reflexivity.
Qed.

(** An IPv6 address on a device that refuses the call. *)
Lemma create_static_address_witness :
  resourceBigipLtmNodeCreate
    (start (planned "v6" "2001:db8::1" [])
       (MkDevice ∅ [Some (Error "duplicate")] None))
  = (Return (Some (Error "duplicate")),
     after_call (start (planned "v6" "2001:db8::1" [])
                   (MkDevice ∅ [Some (Error "duplicate")] None))
       (CallCreateNode "v6" "2001:db8::1" "" 0 0 1 "" "user-up")
       (MkDevice ∅ [] None)).
Proof.
  refine (create_static_address
            (start (planned "v6" "2001:db8::1" [])
               (MkDevice ∅ [Some (Error "duplicate")] None))
            eq_refl _).
  right. exists "2001", "db8::1". split; reflexivity.
Defined.

(** X8.  On typed resource data whose address holds no colon and does not
    start with a digit (an ordinary host name), the pattern does not match:
    create issues no static create call, and update issues the modify call
    with the payload built from the resource data before anything else. *)
Theorem plain_name_goes_to_fqdn {R : Type} `{BigIP R} (w : World R) :
  typed (data w) = true ->
  no_byte ":" (attr_string (data w) "address") = true ->
  leading_digit (attr_string (data w) "address") = false ->
  MatchString classify_regex (attr_string (data w) "address") = false /\
  (exists cs,
      calls (snd (resourceBigipLtmNodeCreate w)) = (calls w ++ cs)%list /\
      List.filter is_static_create cs = []) /\
  (exists cs,
      calls (snd (resourceBigipLtmNodeUpdate w))
      = (calls w ++ CallModifyNode (rd_id (data w)) (modify_payload (data w)) :: cs)%list).
Proof.
  intros Ht Hc Hd.
  assert (Hm := classify_plain_name _ Hc Hd).
  split; [exact Hm|]. split.
  - destruct (create_routing w Ht) as (cs & Hcs & Hf).
    rewrite Hm in Hf. eauto.
  - rewrite (update_fqdn w Ht Hm). cbn zeta.
    destruct (fst (ModifyNode _ _ _)).
    + exists []. reflexivity.
    + rewrite read_calls. cbn [after_call calls data].
      rewrite <- app_assoc. eexists. reflexivity.
Qed.

Lemma plain_name_goes_to_fqdn_witness :
  MatchString classify_regex "web.example.com" = false.
Proof.
  exact (proj1 (plain_name_goes_to_fqdn
                  (start (resource "web" "web.example.com" [])
                     (device_with "web" (fqdn_node "any6" "web.example.com")))
                  eq_refl eq_refl eq_refl)).
Defined.

(** X9.  In no run of create on typed resource data do both kinds of
    create call appear: either no static call is issued or no FQDN call
    is. *)
Theorem create_calls_exclusive {R : Type} `{BigIP R} (w : World R) :
  typed (data w) = true ->
  exists cs,
    calls (snd (resourceBigipLtmNodeCreate w)) = (calls w ++ cs)%list /\
    (List.filter is_static_create cs = [] \/ List.filter is_fqdn_create cs = []).
Proof.
  intros Ht. destruct (create_routing w Ht) as (cs & Hcs & Hf).
  exists cs. split; [exact Hcs|].
  destruct (MatchString classify_regex (attr_string (data w) "address")).
  - right. clear Hcs.
    assert (Hsub : forall l, List.filter is_fqdn_create l
                             = List.filter is_fqdn_create (List.filter is_create l)).
    { induction l as [|c l IH]; [reflexivity|].
      cbn [List.filter]. destruct c; cbn [is_create is_fqdn_create List.filter];
        now rewrite ?IH. }
    rewrite Hsub, Hf. reflexivity.
  - now left.
Qed.

Lemma create_calls_exclusive_witness :
  exists cs,
    calls (snd (resourceBigipLtmNodeCreate
                  (start (planned "node1" "10.0.0.5" []) empty_device)))
    = ([] ++ cs)%list /\
    (List.filter is_static_create cs = [] \/ List.filter is_fqdn_create cs = []).
Proof.
  exact (create_calls_exclusive
           (start (planned "node1" "10.0.0.5" []) empty_device) eq_refl).
Defined.

(** ** Attributes the handlers never ask for *)

Section BlindHandlers.
Context {R : Type} `{BigIP R}.
Variable key : string.

Lemma blind_update :
  ~ In key update_keys -> blind key (resourceBigipLtmNodeUpdate (R := R)).
Proof.
  unfold update_keys. cbn [In]. intros Hk.
  assert (Hget : forall k, In k update_keys -> k <> key).
  { unfold update_keys. cbn [In]. intros k Hin <-. tauto. }
  unfold resourceBigipLtmNodeUpdate.
  apply blind_bind; [apply blind_Id | intros name].
  apply blind_bind; [apply blind_get_string, Hget; cbn; tauto | intros address].
  cbn zeta. destruct (MatchString classify_regex address).
  - apply blind_bind; [apply blind_get_int, Hget; cbn; tauto | intros cl].
    apply blind_bind; [apply blind_get_int, Hget; cbn; tauto | intros dr].
    apply blind_bind; [apply blind_get_string, Hget; cbn; tauto | intros mo].
    apply blind_bind; [apply blind_get_string, Hget; cbn; tauto | intros rl].
    apply blind_bind; [apply blind_get_string, Hget; cbn; tauto | intros st].
    apply blind_read.
  - apply blind_bind; [apply blind_get_int, Hget; cbn; tauto | intros cl].
    apply blind_bind; [apply blind_get_int, Hget; cbn; tauto | intros dr].
    apply blind_bind; [apply blind_get_string, Hget; cbn; tauto | intros mo].
    apply blind_bind; [apply blind_get_string, Hget; cbn; tauto | intros rl].
    apply blind_bind; [apply blind_get_string, Hget; cbn; tauto | intros st].
    apply blind_bind; [apply blind_logged | intros [e|]];
      [apply blind_ret | apply blind_read].
Qed.

Hypothesis key_not_top :
  ~ In key ["name"; "address"; "rate_limit"; "connection_limit"; "dynamic_ratio";
            "ratio"; "monitor"; "state"; "fqdn.#"].
Hypothesis key_not_read_by_loop : forall j,
  ("fqdn." ++ itoa j) ++ ".interval" <> key /\
  ("fqdn." ++ itoa j) ++ ".down_interval" <> key /\
  ("fqdn." ++ itoa j) ++ ".auto_populate" <> key.

Lemma blind_loop_of_create name address rate_limit connection_limit
    dynamic_ratio ratio monitor state n : forall j err,
  blind key (create_fqdn_loop (R := R) name address rate_limit connection_limit
               dynamic_ratio ratio monitor state n j err).
Proof.
  induction n as [|n IH]; intros j err; cbn [create_fqdn_loop].
  - apply blind_ret.
  - destruct (key_not_read_by_loop j) as (Hk1 & Hk2 & Hk3). cbn zeta.
    apply blind_bind; [now apply blind_get_string | intros interval].
    apply blind_bind; [now apply blind_get_int | intros down_interval].
    apply blind_bind; [now apply blind_get_string | intros auto_populate].
    apply blind_bind; [apply blind_logged | intros err'].
    apply IH.
Qed.

Lemma blind_create_of_unread_key : blind key (resourceBigipLtmNodeCreate (R := R)).
Proof.
  assert (Hget : forall k,
            In k ["name"; "address"; "rate_limit"; "connection_limit";
                  "dynamic_ratio"; "ratio"; "monitor"; "state"; "fqdn.#"] ->
            k <> key).
  { intros k Hin <-. exact (key_not_top Hin). }
  unfold resourceBigipLtmNodeCreate.
  apply blind_bind; [apply blind_get_string, Hget; cbn; tauto | intros name].
  apply blind_bind; [apply blind_get_string, Hget; cbn; tauto | intros address].
  apply blind_bind; [apply blind_get_string, Hget; cbn; tauto | intros rate_limit].
  apply blind_bind; [apply blind_get_int, Hget; cbn; tauto | intros connection_limit].
  apply blind_bind; [apply blind_get_int, Hget; cbn; tauto | intros dynamic_ratio].
  apply blind_bind; [apply blind_get_int, Hget; cbn; tauto | intros ratio].
  apply blind_bind; [apply blind_get_string, Hget; cbn; tauto | intros monitor].
  apply blind_bind; [apply blind_get_string, Hget; cbn; tauto | intros state].
  cbn zeta. apply blind_bind.
  - destruct (MatchString classify_regex address).
    + apply blind_logged.
    + apply blind_bind; [apply blind_get_int, Hget; cbn; tauto | intros ifaceCount].
      apply blind_loop_of_create.
  - intros [e|]; [apply blind_ret|].
    apply blind_bind; [apply blind_SetId | intros _; apply blind_read].
Qed.

End BlindHandlers.

Lemma agree_with_attr {R} key v (w : World R) :
  agree key (MkWorld (with_attr key v (data w)) (remote w) (calls w)) w.
Proof.
  repeat split. intros k Hk. unfold rd_get, with_attr. cbn [data rd_attrs].
  now rewrite lookup_insert_ne by congruence.
Qed.

(** The keys of the block fields the schema declares and the loop does not
    read differ from every key create asks for. *)
Lemma block_field_not_read i field :
  In field ["address_family"; "name"; "autopopulate"] ->
  let key := "fqdn." ++ itoa i ++ "." ++ field in
  ~ In key ["name"; "address"; "rate_limit"; "connection_limit"; "dynamic_ratio";
            "ratio"; "monitor"; "state"; "fqdn.#"] /\
  forall j,
    ("fqdn." ++ itoa j) ++ ".interval" <> key /\
    ("fqdn." ++ itoa j) ++ ".down_interval" <> key /\
    ("fqdn." ++ itoa j) ++ ".auto_populate" <> key.
Proof.
  cbn [In]. intros [<- | [<- | [<- | []]]]; cbn zeta; split.
  - cbn [In].
    intros [Hx|[Hx|[Hx|[Hx|[Hx|[Hx|[Hx|[Hx|[Hx|[]]]]]]]]]];
      try (rewrite string_app_cons in Hx; discriminate).
    apply (f_equal String.length) in Hx.
    rewrite !string_app_length in Hx. cbn [String.length] in Hx. lia.
  - intros j. repeat split; intros Heq.
    + change ("." ++ "address_family") with (".addre" ++ "ss_family") in Heq.
      rewrite <- !string_app_assoc in Heq.
      apply app_tail_inv in Heq; [discriminate | reflexivity].
    + change (".down_interval") with ("." ++ "down_interval") in Heq.
      change ("." ++ "address_family") with (("." ++ "a") ++ "ddress_family") in Heq.
      rewrite <- !string_app_assoc in Heq.
      apply app_tail_inv in Heq; [discriminate | reflexivity].
    + change (".auto_populate") with ("." ++ "auto_populate") in Heq.
      change ("." ++ "address_family") with (("." ++ "a") ++ "ddress_family") in Heq.
      rewrite <- !string_app_assoc in Heq.
      apply app_tail_inv in Heq; [discriminate | reflexivity].
  - cbn [In].
    intros [Hx|[Hx|[Hx|[Hx|[Hx|[Hx|[Hx|[Hx|[Hx|[]]]]]]]]]];
      try (rewrite string_app_cons in Hx; discriminate).
    apply (f_equal String.length) in Hx.
    rewrite !string_app_length in Hx. cbn [String.length] in Hx. lia.
  - intros j. repeat split; intros Heq.
    + change (".interval") with (".int" ++ "erval") in Heq.
      change ("." ++ "name") with ("" ++ ".name") in Heq.
      rewrite <- !string_app_assoc in Heq.
      apply app_tail_inv in Heq; [discriminate | reflexivity].
    + change (".down_interval") with (".down_int" ++ "erval") in Heq.
      change ("." ++ "name") with ("" ++ ".name") in Heq.
      rewrite <- !string_app_assoc in Heq.
      apply app_tail_inv in Heq; [discriminate | reflexivity].
    + change (".auto_populate") with (".auto_pop" ++ "ulate") in Heq.
      change ("." ++ "name") with ("" ++ ".name") in Heq.
      rewrite <- !string_app_assoc in Heq.
      apply app_tail_inv in Heq; [discriminate | reflexivity].
  - cbn [In].
    intros [Hx|[Hx|[Hx|[Hx|[Hx|[Hx|[Hx|[Hx|[Hx|[]]]]]]]]]];
      try (rewrite string_app_cons in Hx; discriminate).
    apply (f_equal String.length) in Hx.
    rewrite !string_app_length in Hx. cbn [String.length] in Hx. lia.
  - intros j. exact (loop_keys_not_autopopulate i j).
Qed.

(** X10.  create never asks for the fields [address_family], [name] and
    [autopopulate] of an fqdn block, although the schema declares them:
    whatever the resource data holds under [fqdn.<i>.<field>], create
    returns the same, issues the same calls with the same arguments and
    leaves the device in the same state. *)
Theorem create_ignores_block_fields {R : Type} `{BigIP R}
    (i : nat) (field : string) (v : value) (w : World R) :
  In field ["address_family"; "name"; "autopopulate"] ->
  let w' := MkWorld (with_attr ("fqdn." ++ itoa i ++ "." ++ field) v (data w))
              (remote w) (calls w) in
  fst (resourceBigipLtmNodeCreate w') = fst (resourceBigipLtmNodeCreate w) /\
  calls (snd (resourceBigipLtmNodeCreate w'))
  = calls (snd (resourceBigipLtmNodeCreate w)) /\
  remote (snd (resourceBigipLtmNodeCreate w'))
  = remote (snd (resourceBigipLtmNodeCreate w)).
Proof.
  intros Hf. cbn zeta.
  destruct (block_field_not_read i field Hf) as [Htop Hloop].
  destruct (blind_create_of_unread_key _ Htop Hloop _ w
              (agree_with_attr ("fqdn." ++ itoa i ++ "." ++ field) v w))
    as (Ho & _ & Hr & Hc & _).
  auto.
Qed.

(** The address family of the first block, on the way to the empty
    device. *)
Lemma create_ignores_block_fields_witness :
  calls (snd (resourceBigipLtmNodeCreate
                (start (with_attr "fqdn.0.address_family" (VString "ipv6")
                          (planned "web" "web.example.com" []))
                   empty_device)))
  = calls (snd (resourceBigipLtmNodeCreate
                  (start (planned "web" "web.example.com" []) empty_device))).
Proof.
  refine (proj1 (proj2 (create_ignores_block_fields 0 "address_family"
                          (VString "ipv6")
                          (start (planned "web" "web.example.com" []) empty_device)
                          _))).
  cbn. tauto.
Defined.

(** X11.  update asks for the address, the connection limit, the dynamic
    ratio, the monitor, the rate limit and the state only: whatever the
    resource data holds under any other key (ratio, name, the fqdn
    blocks), update returns the same, issues the same calls with the same
    payload and leaves the device in the same state; an edit of ratio is
    never sent. *)
Theorem update_ignores_other_attributes {R : Type} `{BigIP R}
    (key : string) (v : value) (w : World R) :
  ~ In key update_keys ->
  let w' := MkWorld (with_attr key v (data w)) (remote w) (calls w) in
  fst (resourceBigipLtmNodeUpdate w') = fst (resourceBigipLtmNodeUpdate w) /\
  calls (snd (resourceBigipLtmNodeUpdate w'))
  = calls (snd (resourceBigipLtmNodeUpdate w)) /\
  remote (snd (resourceBigipLtmNodeUpdate w'))
  = remote (snd (resourceBigipLtmNodeUpdate w)).
Proof.
  intros Hk. cbn zeta.
  destruct (blind_update key Hk _ w (agree_with_attr key v w))
    as (Ho & _ & Hr & Hc & _).
  auto.
Qed.

(** A ratio raised to 5 on a domain-name node. *)
Lemma update_ignores_other_attributes_witness :
  calls (snd (resourceBigipLtmNodeUpdate
                (start (with_attr "ratio" (VInt 5)
                          (resource "web" "web.example.com" []))
                   (device_with "web" (fqdn_node "any6" "web.example.com")))))
  = calls (snd (resourceBigipLtmNodeUpdate
                  (start (resource "web" "web.example.com" [])
                     (device_with "web" (fqdn_node "any6" "web.example.com"))))).
Proof.
  refine (proj1 (proj2 (update_ignores_other_attributes "ratio" (VInt 5)
                          (start (resource "web" "web.example.com" [])
                             (device_with "web" (fqdn_node "any6" "web.example.com")))
                          _))).
  unfold update_keys. cbn [In]. intros [|[|[|[|[|[|[]]]]]]]; discriminate.
Defined.

(** ** What the patterns accept beyond plain addresses *)

Lemma classify_dotted_quad_prefix a b c d t :
  octet a = true -> octet b = true -> octet c = true -> octet d = true ->
  leading_digit t = false ->
  MatchString classify_regex (dotted_quad a b c d ++ t) = true.
Proof.
  intros Ha Hb Hc Hd Ht. unfold MatchString, find.
  erewrite search_here; [reflexivity|].
  unfold match_at, classify_regex.
  apply run_alt_l. rewrite run_begin, run_capture.
  apply run_quad; try assumption; try (now left); reflexivity.
Qed.

(** X13.  The first alternative of the classification pattern is anchored
    at the start only: on typed resource data whose address starts with a
    dotted quad that no digit follows, whatever else follows it (a route
    domain, the rest of a host name), create issues the static create call
    and update issues no modify call. *)
Theorem dotted_quad_prefix_is_static {R : Type} `{BigIP R} (w : World R) a b c d t :
  typed (data w) = true ->
  octet a = true -> octet b = true -> octet c = true -> octet d = true ->
  leading_digit t = false ->
  attr_string (data w) "address" = dotted_quad a b c d ++ t ->
  (exists cs,
      calls (snd (resourceBigipLtmNodeCreate w))
      = (calls w ++ static_create_call (data w) :: cs)%list) /\
  calls (snd (resourceBigipLtmNodeUpdate w))
  = (calls w ++ [CallGetNode (rd_id (data w))])%list.
Proof.
  intros Ht Ha Hb Hc Hd Hlead Haddr.
  assert (Hm : MatchString classify_regex (attr_string (data w) "address") = true).
  { rewrite Haddr. now apply classify_dotted_quad_prefix. }
  split.
  - rewrite (create_static w Ht Hm). cbn zeta.
    destruct (fst (static_create (data w) (remote w))).
    + exists []. reflexivity.
    + rewrite read_calls. cbn [with_id after_call calls data rd_id].
      rewrite <- app_assoc. eexists. reflexivity.
  - rewrite (update_static w Ht Hm). apply read_calls.
Qed.

(** A host name that starts like an address. *)
Lemma dotted_quad_prefix_is_static_witness :
  calls (snd (resourceBigipLtmNodeUpdate
                (start (resource "app" "10.0.0.5.example.com" [])
                   (device_with "app" (fqdn_node "any6" "10.0.0.5.example.com")))))
  = [CallGetNode "app"].
Proof.
  exact (proj2 (dotted_quad_prefix_is_static
                  (start (resource "app" "10.0.0.5.example.com" [])
                     (device_with "app" (fqdn_node "any6" "10.0.0.5.example.com")))
                  "10" "0" "0" "5" ".example.com"
                  eq_refl eq_refl eq_refl eq_refl eq_refl eq_refl eq_refl)).
Defined.

(** ** The extraction pattern is not anchored *)

Lemma in_range_low lo hi c :
  (byte_val c <? 128)%N = true -> (128 <= lo)%N -> in_range lo hi c = false.
Proof.
  intros Hc Hlo. unfold in_range. apply andb_false_intro1.
  apply N.ltb_lt in Hc. apply N.leb_gt. lia.
Qed.

(** A rune never reaches over an ASCII byte. *)
Lemma utf8_size_ascii b pre c u :
  (byte_val c <? 128)%N = true ->
  utf8_size b (pre ++ String c u) - 1 <= String.length pre.
Proof.
  intros Hc.
  assert (Hr : forall lo hi, (128 <= lo)%N -> in_range lo hi c = false)
    by (intros; now apply in_range_low).
  destruct pre as [|c1 [|c2 [|c3 pre]]]; norm_app; cbn [String.length];
    try (pose proof (utf8_size_bounds b
                       (String c1 (String c2 (String c3 (pre ++ String c u))))) as Hb;
         revert Hb);
    unfold utf8_size;
    repeat match goal with
           | |- context [(?x <? ?y)%N] => destruct (x <? y)%N
           | |- context [(?x =? ?y)%N] => destruct (x =? y)%N
           end;
    rewrite ?Hr by lia; rewrite ?andb_false_r; cbn [andb];
    repeat match goal with
           | |- context [if ?x then _ else _] => destruct x
           | |- context [match ?s with EmptyString => _ | String _ _ => _ end] =>
               destruct s
           end;
    cbn [andb]; try lia.
Qed.

Lemma no_digit_skip n : forall s, no_digit s = true -> no_digit (skip n s) = true.
Proof.
  induction n as [|n IH]; intros [|b s] Hs; cbn [skip]; auto.
  cbn [no_digit] in Hs. apply andb_prop in Hs as [_ Hs]. auto.
Qed.

Lemma extract_fails_at p s :
  leading_digit s = false -> match_at extract_regex p s = None.
Proof.
  intros Hs. unfold match_at, extract_regex. cbn [run req_loop].
  now apply one_rune_digit_fail.
Qed.

(** The search steps over a prefix without digits and tries the offset
    right behind it. *)
Lemma search_behind_prefix c u x m : forall pre n p,
  is_digit c = true ->
  String.length pre <= m ->
  no_digit pre = true ->
  String.length (pre ++ String c u) <= n ->
  match_at extract_regex (p + String.length pre) (String c u) = Some x ->
  search extract_regex n p (pre ++ String c u) = Some x.
Proof.
  induction m as [|m IH]; intros pre n p Hc Hm Hpre Hn Hx.
  - destruct pre; cbn [String.length] in Hm; [|lia].
    cbn [String.length] in Hx. rewrite Nat.add_0_r in Hx.
    rewrite string_app_nil. now apply search_here.
  - destruct pre as [|b pre].
    + cbn [String.length] in Hx. rewrite Nat.add_0_r in Hx.
      rewrite string_app_nil. now apply search_here.
    + change (String b pre ++ String c u) with (String b (pre ++ String c u)) in *.
      cbn [String.length] in Hm, Hn, Hx.
      cbn [no_digit] in Hpre. apply andb_prop in Hpre as [Hb Hpre].
      apply negb_true_iff in Hb.
      destruct n as [|n]; [lia|]. cbn [search].
      rewrite extract_fails_at by exact Hb.
      cbn [DecodeRuneInString].
      destruct (byte_val b <? 128)%N.
      * apply IH; try assumption; try lia.
        rewrite <- Hx. f_equal. lia.
      * pose proof (utf8_size_ascii b pre c u (is_digit_ascii c Hc)) as Hw.
        pose proof (utf8_size_bounds b (pre ++ String c u)) as Hbd.
        rewrite skip_app by exact Hw.
        apply IH; try assumption.
        -- rewrite skip_length. lia.
        -- now apply no_digit_skip.
        -- rewrite string_app_length, skip_length.
           rewrite string_app_length in Hn. cbn [String.length] in *. lia.
        -- rewrite skip_length. rewrite <- Hx. f_equal. lia.
Qed.

Lemma substring_behind_prefix pre : forall n s,
  substring (String.length pre) n (pre ++ s) = substring 0 n s.
Proof.
  induction pre as [|b pre IH]; intros n s; norm_app; [reflexivity|].
  cbn [String.length substring]. apply IH.
Qed.

Lemma octet_head o t :
  octet o = true -> exists c u, o ++ t = String c u /\ is_digit c = true.
Proof.
  unfold octet. intros Ho. apply andb_prop in Ho as [Ho _].
  apply andb_prop in Ho as [Hall Hlo]. apply Nat.leb_le in Hlo.
  destruct o as [|c o]; cbn [String.length] in Hlo; [lia|].
  cbn [all_digits] in Hall. apply andb_prop in Hall as [Hc _].
  exists c, (o ++ t). split; [reflexivity | assumption].
Qed.

(** The pattern finds a dotted quad behind any prefix without digits. *)
Lemma extract_behind_prefix pre a b c d sfx :
  no_digit pre = true ->
  octet a = true -> octet b = true -> octet c = true -> octet d = true ->
  route_domain_suffix sfx ->
  FindStringSubmatch extract_regex (pre ++ dotted_quad a b c d ++ sfx)
  = Some [dotted_quad a b c d ++ sfx; dotted_quad a b c d].
Proof.
  intros Hpre Ha Hb Hc Hd Hs. unfold FindStringSubmatch, find.
  set (q := dotted_quad a b c d).
  set (p := String.length pre).
  assert (Hat : match_at extract_regex (0 + p) (q ++ sfx)
                = Some (<[0 := (p, p + String.length (q ++ sfx))]>
                          (<[1 := (p, p + String.length q)]> ∅))).
  { unfold match_at, extract_regex. rewrite run_concat, run_capture.
    apply run_quad; try assumption; try (now left); try (now right).
    - now apply route_domain_no_leading_digit.
    - cbn [pos rest cap].
      apply run_route_domain; [assumption|].
      cbn [pos cap Nat.add]. rewrite string_app_length.
      fold q. now rewrite Nat.add_assoc. }
  destruct (octet_head a ("." ++ b ++ "." ++ c ++ "." ++ d ++ sfx) Ha)
    as (c0 & u & Hhead & Hc0).
  assert (Hq : q ++ sfx = String c0 u).
  { unfold q, dotted_quad. rewrite <- Hhead. now rewrite !string_app_assoc. }
  rewrite Hq in *.
  rewrite (search_behind_prefix c0 u _ (String.length pre) pre _ 0 Hc0
             (Nat.le_refl _) Hpre (Nat.le_refl _) Hat).
  change (seq 0 (S (NumSubexp extract_regex))) with [0; 1].
  cbn [List.map]. rewrite lookup_insert_eq.
  rewrite lookup_insert_ne by lia. rewrite lookup_insert_eq.
  replace (p + String.length (String c0 u) - p) with (String.length (String c0 u)) by lia.
  replace (p + String.length q - p) with (String.length q) by lia.
  unfold p. rewrite !substring_behind_prefix.
  rewrite <- Hq. rewrite substring_prefix.
  rewrite <- (string_app_nil_r (q ++ sfx)) at 2.
  now rewrite substring_prefix.
Qed.

(** X14.  The extraction pattern is not anchored: for a node without FQDN
    name whose address holds a dotted quad (with or without route domain)
    behind any prefix without digits, such as the IPv4-mapped IPv6 address
    "::ffff:10.0.0.5", read returns nil and stores the dotted quad alone as
    the address. *)
Theorem read_extracts_embedded_quad {R : Type} `{BigIP R} (w : World R) node r'
    pre a b c d sfx :
  GetNode (rd_id (data w)) (remote w) = ((Some node, None), r') ->
  FQDN_Name node = "" ->
  no_digit pre = true ->
  octet a = true -> octet b = true -> octet c = true -> octet d = true ->
  route_domain_suffix sfx ->
  Address node = pre ++ dotted_quad a b c d ++ sfx ->
  fst (resourceBigipLtmNodeRead w) = Return None /\
  address_of (snd (resourceBigipLtmNodeRead w)) = VString (dotted_quad a b c d).
Proof.
  intros Hg He Hpre Ha Hb Hc Hd Hs Haddr.
  rewrite (read_found w node r' (dotted_quad a b c d) Hg).
  - split; [reflexivity | apply refreshed_address].
  - right. split; [assumption|].
    exists (dotted_quad a b c d ++ sfx), [].
    rewrite Haddr. now apply extract_behind_prefix.
Qed.

Lemma read_extracts_embedded_quad_witness :
  address_of
    (snd (resourceBigipLtmNodeRead
            (start (resource "v6" "::ffff:10.0.0.5" [])
               (device_with "v6" (static_node "::ffff:10.0.0.5")))))
  = VString "10.0.0.5".
Proof.
  refine (proj2 (read_extracts_embedded_quad
                   (start (resource "v6" "::ffff:10.0.0.5" [])
                      (device_with "v6" (static_node "::ffff:10.0.0.5")))
                   (static_node "::ffff:10.0.0.5") _ "::ffff:" "10" "0" "0" "5" ""
                   eq_refl eq_refl eq_refl eq_refl eq_refl eq_refl eq_refl _ eq_refl)).
  now left.
Defined.

(* ===================================================================== *)
(** * create on the resource data the host builds (C5) *)
(* ===================================================================== *)

(** ** Telling keys apart by their tails *)

Lemma skip_past p : forall n t, skip (String.length p + n) (p ++ t) = skip n t.
Proof.
  induction p as [|b p IH]; intros n t; norm_app; [reflexivity|].
  cbn [String.length Nat.add skip]. apply IH.
Qed.

Lemma lastn_app k p t :
  k <= String.length t -> lastn k (p ++ t) = lastn k t.
Proof.
  intros Hk. unfold lastn. rewrite string_app_length.
  replace (String.length p + String.length t - k)
    with (String.length p + (String.length t - k)) by lia.
  apply skip_past.
Qed.

Ltac cut_tails H :=
  repeat match type of H with
         | context [lastn ?k (?p ++ ?t)] =>
             rewrite (lastn_app k p t) in H
               by (rewrite ?string_app_length; cbn [String.length]; lia)
         end.

(** Two keys with different tails of some length are different. *)
Ltac tails_differ H :=
  rewrite ?string_app_assoc in H;
  first
    [ apply (f_equal (lastn 4)) in H; cut_tails H; vm_compute in H; discriminate H
    | apply (f_equal (lastn 5)) in H; cut_tails H; vm_compute in H; discriminate H
    | apply (f_equal (lastn 9)) in H; cut_tails H; vm_compute in H; discriminate H
    | apply (f_equal (lastn 14)) in H; cut_tails H; vm_compute in H; discriminate H ].

(** ** What the built resource data holds *)

Lemma put_attrs_fqdn_eq P sub m :
  put_attrs P fqdn_schema sub m
  = <[P ++ "address_family" := resolve (MkSchema TypeString None) (sub !! "address_family")]>
      (<[P ++ "name" := resolve (MkSchema TypeString None) (sub !! "name")]>
         (<[P ++ "interval" := resolve (MkSchema TypeString (Some (VString "3600"))) (sub !! "interval")]>
            (<[P ++ "down_interval" := resolve (MkSchema TypeInt (Some (VInt 5))) (sub !! "down_interval")]>
               (<[P ++ "autopopulate" := resolve (MkSchema TypeString (Some (VString "disabled"))) (sub !! "autopopulate")]> m)))).
Proof. reflexivity. Qed.

Lemma put_attrs_node_eq cfg m :
  put_attrs "" node_schema cfg m
  = <["name" := resolve (MkSchema TypeString None) (cfg !! "name")]>
      (<["address" := resolve (MkSchema TypeString None) (cfg !! "address")]>
         (<["rate_limit" := resolve (MkSchema TypeString None) (cfg !! "rate_limit")]>
            (<["connection_limit" := resolve (MkSchema TypeInt (Some (VInt 0))) (cfg !! "connection_limit")]>
               (<["dynamic_ratio" := resolve (MkSchema TypeInt (Some (VInt 0))) (cfg !! "dynamic_ratio")]>
                  (<["ratio" := resolve (MkSchema TypeInt (Some (VInt 1))) (cfg !! "ratio")]>
                     (<["monitor" := resolve (MkSchema TypeString None) (cfg !! "monitor")]>
                        (<["state" := resolve (MkSchema TypeString (Some (VString "user-up"))) (cfg !! "state")]> m))))))).
Proof. reflexivity. Qed.

(** The blocks only write keys of the form [fqdn.<j>.<declared field>]. *)
Lemma put_fqdn_other K subs : forall i m,
  (forall j f,
      In f ["address_family"; "name"; "interval"; "down_interval"; "autopopulate"] ->
      ("fqdn." ++ itoa j ++ ".") ++ f <> K) ->
  put_fqdn i subs m !! K = m !! K.
Proof.
  induction subs as [|sub subs IH]; intros i m HK; cbn [put_fqdn]; [reflexivity|].
  rewrite IH by exact HK. rewrite put_attrs_fqdn_eq.
  rewrite !lookup_insert_ne by (apply HK; cbn; tauto).
  reflexivity.
Qed.

Lemma resolve_string d c :
  match d with Some (VString _) | None => True | _ => False end ->
  exists s, resolve (MkSchema TypeString d) c = VString s.
Proof.
  intros Hd. unfold resolve. cbn [Type_ Default].
  destruct c as [[|s|n]|]; cbn [has_type zero_value]; eauto.
  destruct d as [[|s|n]|]; cbn [zero_value]; try contradiction; eauto.
Qed.

Lemma resolve_int d c :
  match d with Some (VInt _) | None => True | _ => False end ->
  exists n, resolve (MkSchema TypeInt d) c = VInt n.
Proof.
  intros Hd. unfold resolve. cbn [Type_ Default].
  destruct c as [[|s|n]|]; cbn [has_type zero_value]; eauto.
  destruct d as [[|s|n]|]; cbn [zero_value]; try contradiction; eauto.
Qed.

Lemma resolve_string_typed d c :
  match d with Some (VString _) | None => True | _ => False end ->
  has_type TypeString (resolve (MkSchema TypeString d) c) = true.
Proof. intros Hd. now destruct (resolve_string d c Hd) as [s ->]. Qed.

Lemma resolve_int_typed d c :
  match d with Some (VInt _) | None => True | _ => False end ->
  has_type TypeInt (resolve (MkSchema TypeInt d) c) = true.
Proof. intros Hd. now destruct (resolve_int d c Hd) as [n ->]. Qed.

Lemma block_key_not_top j f k :
  In k ["name"; "address"; "rate_limit"; "connection_limit"; "dynamic_ratio";
        "ratio"; "monitor"; "state"] ->
  ("fqdn." ++ itoa j ++ ".") ++ f <> k.
Proof.
  cbn [In]. intros [<- | [<- | [<- | [<- | [<- | [<- | [<- | [<- | []]]]]]]]] Heq;
    rewrite string_app_assoc, string_app_cons in Heq; discriminate.
Qed.

Lemma built_top id cfg subs k :
  In k ["name"; "address"; "rate_limit"; "connection_limit"; "dynamic_ratio";
        "ratio"; "monitor"; "state"] ->
  rd_attrs (built id cfg subs) !! k = put_attrs "" node_schema cfg ∅ !! k.
Proof.
  intros Hk. unfold built, configure. cbn [rd_attrs].
  rewrite lookup_insert_ne.
  - apply put_fqdn_other. intros j f _. now apply block_key_not_top.
  - cbn [In] in Hk. intros <-.
    destruct Hk as [Hx|[Hx|[Hx|[Hx|[Hx|[Hx|[Hx|[Hx|[]]]]]]]]]; discriminate.
Qed.

(** The host hands over typed resource data, whatever was configured. *)
Lemma built_typed id cfg subs : typed (built id cfg subs) = true.
Proof.
  unfold typed. cbn [forallb node_schema fst snd scalar Type_ negb orb].
  unfold rd_get.
  rewrite !built_top by (cbn; tauto).
  rewrite put_attrs_node_eq.
  repeat first [ rewrite lookup_insert_eq | rewrite lookup_insert_ne by discriminate ].
  rewrite !resolve_string_typed by exact I.
  rewrite !resolve_int_typed by exact I. reflexivity.
Qed.

Lemma built_count id cfg subs :
  rd_get (built id cfg subs) "fqdn.#" = VInt (Z.of_nat (List.length subs)).
Proof.
  unfold rd_get, built, configure. cbn [rd_attrs]. now rewrite lookup_insert_eq.
Qed.

(** No built resource data holds the key line 146 asks for. *)
Lemma built_no_auto_populate id cfg subs i :
  rd_get (built id cfg subs) (("fqdn." ++ itoa i) ++ ".auto_populate") = VNil.
Proof.
  unfold rd_get, built, configure. cbn [rd_attrs].
  rewrite lookup_insert_ne by (intros Heq; tails_differ Heq).
  rewrite put_fqdn_other.
  - rewrite put_attrs_node_eq.
    rewrite !lookup_insert_ne
      by (intros Heq; rewrite string_app_assoc, string_app_cons in Heq; discriminate).
    now rewrite lookup_empty.
  - intros j f Hf Heq. cbn [In] in Hf.
    destruct Hf as [<- | [<- | [<- | [<- | [<- | []]]]]]; tails_differ Heq.
Qed.

(** ** The first block of built resource data *)

Lemma str_at_insert m k K v :
  str_at m K -> (k = K -> exists s, v = VString s) -> str_at (<[k := v]> m) K.
Proof.
  intros [s Hs] Hv. unfold str_at. destruct (decide (k = K)) as [->|Hne].
  - destruct (Hv eq_refl) as [s' ->]. exists s'. apply lookup_insert_eq.
  - exists s. now rewrite lookup_insert_ne.
Qed.

Lemma int_at_insert m k K v :
  int_at m K -> (k = K -> exists n, v = VInt n) -> int_at (<[k := v]> m) K.
Proof.
  intros [n Hn] Hv. unfold int_at. destruct (decide (k = K)) as [->|Hne].
  - destruct (Hv eq_refl) as [n' ->]. exists n'. apply lookup_insert_eq.
  - exists n. now rewrite lookup_insert_ne.
Qed.

(** A block leaves a string under every [....interval] key that held one,
    and an int under every [....down_interval] key that held one. *)
Lemma block_keeps_types j sub m X :
  (str_at m (X ++ ".interval") ->
   str_at (put_attrs ("fqdn." ++ itoa j ++ ".") fqdn_schema sub m) (X ++ ".interval")) /\
  (int_at m (X ++ ".down_interval") ->
   int_at (put_attrs ("fqdn." ++ itoa j ++ ".") fqdn_schema sub m) (X ++ ".down_interval")).
Proof.
  rewrite put_attrs_fqdn_eq. split; intros Hm.
  - apply str_at_insert; [|intros _; now apply resolve_string].
    apply str_at_insert; [|intros _; now apply resolve_string].
    apply str_at_insert; [|intros _; now apply resolve_string].
    apply str_at_insert; [|intros Heq; tails_differ Heq].
    apply str_at_insert; [|intros _; now apply resolve_string].
    exact Hm.
  - apply int_at_insert; [|intros Heq; tails_differ Heq].
    apply int_at_insert; [|intros Heq; tails_differ Heq].
    apply int_at_insert; [|intros Heq; tails_differ Heq].
    apply int_at_insert; [|intros _; now apply resolve_int].
    apply int_at_insert; [|intros Heq; tails_differ Heq].
    exact Hm.
Qed.

Lemma blocks_keep_types X subs : forall j m,
  (str_at m (X ++ ".interval") -> str_at (put_fqdn j subs m) (X ++ ".interval")) /\
  (int_at m (X ++ ".down_interval") -> int_at (put_fqdn j subs m) (X ++ ".down_interval")).
Proof.
  induction subs as [|sub subs IH]; intros j m; cbn [put_fqdn]; [tauto|].
  destruct (IH (S j) (put_attrs ("fqdn." ++ itoa j ++ ".") fqdn_schema sub m)) as [IHs IHi].
  destruct (block_keeps_types j sub m X) as [Hs Hi].
  split; intros Hm; [apply IHs, Hs, Hm | apply IHi, Hi, Hm].
Qed.

(** With at least one block, the first two keys the loop asks for hold a
    string and an int. *)
Lemma built_first_block id cfg sub subs :
  (exists s, rd_get (built id cfg (sub :: subs)) (("fqdn." ++ itoa 0) ++ ".interval")
             = VString s) /\
  (exists n, rd_get (built id cfg (sub :: subs)) (("fqdn." ++ itoa 0) ++ ".down_interval")
             = VInt n).
Proof.
  unfold rd_get, built, configure. cbn [rd_attrs put_fqdn].
  set (m0 := put_attrs "" node_schema cfg ∅).
  set (X := "fqdn." ++ itoa 0).
  assert (Hs : str_at (put_attrs ("fqdn." ++ itoa 0 ++ ".") fqdn_schema sub m0)
                 (X ++ ".interval")).
  { rewrite put_attrs_fqdn_eq. unfold str_at.
    destruct (resolve_string (Some (VString "3600")) (sub !! "interval") I) as [s Hs].
    exists s. rewrite <- Hs. reflexivity. }
  assert (Hi : int_at (put_attrs ("fqdn." ++ itoa 0 ++ ".") fqdn_schema sub m0)
                 (X ++ ".down_interval")).
  { rewrite put_attrs_fqdn_eq. unfold int_at.
    destruct (resolve_int (Some (VInt 5)) (sub !! "down_interval") I) as [n Hn].
    exists n. rewrite <- Hn. reflexivity. }
  destruct (blocks_keep_types X subs 1
              (put_attrs ("fqdn." ++ itoa 0 ++ ".") fqdn_schema sub m0)) as [Ks Ki].
  apply Ks in Hs. apply Ki in Hi.
  split.
  - destruct (str_at_insert _ "fqdn.#" (X ++ ".interval")
                (VInt (Z.of_nat (List.length (sub :: subs)))) Hs) as [s Hl].
    + intros Heq. tails_differ Heq.
    + exists s. now rewrite Hl.
  - destruct (int_at_insert _ "fqdn.#" (X ++ ".down_interval")
                (VInt (Z.of_nat (List.length (sub :: subs)))) Hi) as [n Hl].
    + intros _. eauto.
    + exists n. now rewrite Hl.
Qed.

(** ** create on built resource data *)

Section CreateBuilt.
Context {R : Type} `{BigIP R}.

(** With at least one block and an address the pattern does not match,
    the first iteration of the loop reads the interval and the down
    interval and panics on the type assertion of line 146. *)
Lemma create_panics_at_auto_populate id cfg sub subs (r : R) log :
  let d := built id cfg (sub :: subs) in
  MatchString classify_regex (attr_string d "address") = false ->
  resourceBigipLtmNodeCreate (MkWorld d r log)
  = (Panic "interface conversion: interface {} is nil, not string",
     MkWorld d r log).
Proof.
  cbn zeta. intros Hm.
  set (d := built id cfg (sub :: subs)) in *.
  set (w := MkWorld d r log).
  rewrite (create_fqdn w (built_typed id cfg (sub :: subs)) Hm). cbn zeta.
  unfold bind at 1.
  erewrite (bind_Return (get_int "fqdn.#"))
    by (apply get_int_ok; apply built_count).
  cbn [List.length]. rewrite Nat2Z.id. cbn [create_fqdn_loop].
  destruct (built_first_block id cfg sub subs) as [[s Hs] [n Hn]].
  erewrite bind_Return by (apply get_string_ok; exact Hs).
  erewrite bind_Return by (apply get_int_ok; exact Hn).
  erewrite bind_Panic; [reflexivity|].
  apply get_string_nil. apply built_no_auto_populate.
Qed.

End CreateBuilt.



(** X12.  Whatever fqdn blocks are configured, and however many, create on
    built resource data whose address the pattern does not match never
    reaches [CreateFQDNNode]: with at least one block it panics on the
    assertion of line 146, having issued no call, written nothing and left
    the device untouched. *)
Theorem create_with_blocks_panics {R : Type} `{BigIP R}
    (id : string) (cfg : gmap string value) sub subs (r : R) (log : list Call) :
  let d := built id cfg (sub :: subs) in
  MatchString classify_regex (attr_string d "address") = false ->
  fst (resourceBigipLtmNodeCreate (MkWorld d r log))
  = Panic "interface conversion: interface {} is nil, not string" /\
  snd (resourceBigipLtmNodeCreate (MkWorld d r log)) = MkWorld d r log.
Proof.
  cbn zeta. intros Hm.
  rewrite (create_panics_at_auto_populate id cfg sub subs r log Hm).
  split; reflexivity.
Qed.

(** A fully configured block. *)
Lemma create_with_blocks_panics_witness :
  fst (resourceBigipLtmNodeCreate
         (MkWorld
            (built "" (<["name" := VString "web"]>
                         (<["address" := VString "web.example.com"]> ∅))
               [ <["interval" := VString "60"]>
                   (<["down_interval" := VInt 3]>
                      (<["autopopulate" := VString "enabled"]> ∅)) ])
            empty_device []))
  = Panic "interface conversion: interface {} is nil, not string".
Proof.
  exact (proj1 (create_with_blocks_panics ""
                  (<["name" := VString "web"]>
                     (<["address" := VString "web.example.com"]> ∅))
                  (<["interval" := VString "60"]>
                     (<["down_interval" := VInt 3]>
                        (<["autopopulate" := VString "enabled"]> ∅)))
                  [] empty_device [] eq_refl)).
Defined.
